(** * Garage door monitor: on-demand Wi-Fi + MQTT publish scheduler

    A shallow embedding of the ESP8266 sketch (the file with [setup] and
    [loop], [publishStatus], [ensureMqttAndPublishIfDirty], ...).  The
    sketch is a single cooperative loop over global variables that talks
    to three collaborators: the switch pin, the Wi-Fi radio and the MQTT
    client.  The embedding keeps that shape:

    - the globals are the record [Vars];
    - the collaborators' visible state is the record [Device];
    - [clock] is the time in milliseconds since power-on; [millis()]
      returns it reduced to 32 bits; time passes in [delay] and in the
      blocking network calls ([mqtt.connect], [mqtt.publish]), which
      take as long as the environment says, and nowhere else;
    - every call into a collaborator is logged, in order, in [trace];
    - what the outside world answers during one pass (pin level, whether
      the link or the broker session survived, whether a connect or a
      publish went through and how long it took) is the record [Env],
      read by the code of that pass.

    Code is written in a small reader + state + failure monad so each
    function reads like its C++ source.  Failure ([None]) only stands for
    a polling loop that would not return; [loop_total] and [setup_total]
    show it never happens. *)

From Stdlib Require Import ZArith List Bool String Lia.
Import ListNotations.
Open Scope string_scope.
Open Scope list_scope.
Open Scope Z_scope.

(** ** 32-bit arithmetic ([unsigned long] and [long] on the ESP8266) *)

Definition wrap (z : Z) : Z := z mod 2 ^ 32.

(** The value of [(long) u] for an [unsigned long] expression. *)
Definition as_long (z : Z) : Z :=
  let u := wrap z in if u <? 2 ^ 31 then u else u - 2 ^ 32.

(** ** Configuration constants of the sketch *)

Definition LOW : Z := 0.
Definition HIGH : Z := 1.

Definition SWITCH_PIN : Z := 12.
Definition ACTIVE_LOW : bool := true.
Definition DEBOUNCE_MS : Z := 80.
Definition WINDOW_MS : Z := wrap (wrap (10 * 60) * 1000).
Definition TOPIC_STATUS : string := "garage/door".
Definition TOPIC_ONLINE : string := "garage/door/online".
Definition PUBLISH_ON_BOOT : bool := true.

(** [secrets.h] is not part of the sources: its macros are taken as a
    parameter.  [CLIENT_SUFFIX] is what [makeClientId] appends to "esp-":
    [DEVICE_ID] when defined, else the chip id printed in hexadecimal. *)
Record Secrets := {
  WIFI_SSID : string;
  WIFI_PASS : string;
  MQTT_HOST : string;
  MQTT_PORT : Z;
  MQTT_USER : string;
  MQTT_PASS : string;
  CLIENT_SUFFIX : string
}.

(** ** Observable calls *)

Inductive WiFiMode := WIFI_OFF | WIFI_STA.

Inductive Event :=
| SerialBegin (baud : Z)
| SerialPrint (s : string)
| SerialPrintln (s : string)
| PinModePullup (pin : Z)
| WifiForceSleepBegin
| WifiForceSleepWake
| WifiDisconnect (wifioff : bool)
| WifiPersistent (b : bool)
| WifiSetMode (m : WiFiMode)
| WifiSetAutoReconnect (b : bool)
| WifiBegin (ssid pass : string)
| MqttSetServer (host : string) (port : Z)
| MqttConnect (cid : string) (cred : option (string * string))
              (willTopic : string) (willQos : Z) (willRetain : bool)
              (willMsg : string) (ok : bool)
| MqttPublish (topic payload : string) (retained : bool) (ok : bool)
| MqttDisconnect
| MqttLoop.

(** ** State *)

Record Vars := {
  lastStable : bool;        (* stable logical state (true = open) *)
  lastRead : bool;          (* last raw read mapped to logical *)
  lastBounceAt : Z;         (* last time the raw read changed *)
  dirty : bool;             (* there is an unsent latest status *)
  windowDeadline : Z        (* remain connected until then *)
}.

(** What the radio and the MQTT client hold: is the radio powered and in
    station mode, is the link up ([WiFi.status() == WL_CONNECTED] when
    last asked), is the broker session live. *)
Record Device := {
  radio : bool;
  link : bool;
  session : bool
}.

Record World := {
  vars : Vars;
  dev : Device;
  clock : Z;
  trace : list Event
}.

(** The four connectivity states of the session manager. *)
Inductive ConnState :=
| RadioOff
| RadioOnNoLink
| RadioOnLinkedNoSession
| RadioOnLinkedWithSession.

Definition conn_state (d : Device) : ConnState :=
  if radio d then
    if link d then
      if session d then RadioOnLinkedWithSession else RadioOnLinkedNoSession
    else RadioOnNoLink
  else RadioOff.

(** The result of a blocking network call and the time it took. *)
Record Outcome := {
  ok : bool;
  took : N
}.

(** What [mqttConnect] meets: the connect itself, then the birth message. *)
Record Handshake := {
  hs_connect : Outcome;
  hs_birth : Outcome
}.

(** The environment of one pass of [loop] (or of [setup]). *)
Record Env := {
  pin_level : Z;             (* digitalRead(SWITCH_PIN) *)
  link_pre : bool;           (* link seen up on entry of step 2 *)
  wifi_join : option N;      (* ms after WiFi.begin until associated *)
  sess_pre : bool;           (* session survived until step 2 *)
  hs_pub : Handshake;        (* mqttConnect of step 2 *)
  status_pub : Outcome;      (* mqtt.publish of the status *)
  sess_post : bool;          (* session survived until step 3 *)
  link_post : bool;          (* link seen up in step 3 *)
  hs_re : Handshake          (* mqttConnect of step 3 *)
}.

Definition power_on_vars : Vars :=
  {| lastStable := false; lastRead := false; lastBounceAt := 0;
     dirty := false; windowDeadline := 0 |}.

Definition power_on (d : Device) : World :=
  {| vars := power_on_vars; dev := d; clock := 0; trace := [] |}.

(** ** The monad *)

Definition M (A : Type) : Type := Env -> World -> option (A * World).

Definition ret {A} (a : A) : M A := fun _ w => Some (a, w).

Definition bind {A B} (m : M A) (k : A -> M B) : M B :=
  fun e w => match m e w with
             | Some (a, w') => k a e w'
             | None => None
             end.

Definition diverge {A} : M A := fun _ _ => None.

Declare Scope prog_scope.
Delimit Scope prog_scope with prog.
Notation "x <- c1 ;; c2" := (bind c1 (fun x => c2))
  (at level 61, c1 at next level, right associativity) : prog_scope.
Notation "c1 ;; c2" := (bind c1 (fun _ => c2))
  (at level 61, right associativity) : prog_scope.
Open Scope prog_scope.

Definition ask {A} (f : Env -> A) : M A := fun e w => Some (f e, w).
Definition gets {A} (f : World -> A) : M A := fun _ w => Some (f w, w).
Definition modify (f : World -> World) : M unit := fun _ w => Some (tt, f w).
Definition when (b : bool) (m : M unit) : M unit := if b then m else ret tt.

Definition var {A} (f : Vars -> A) : M A := gets (fun w => f (vars w)).

Definition with_vars (f : Vars -> Vars) (w : World) : World :=
  {| vars := f (vars w); dev := dev w; clock := clock w; trace := trace w |}.
Definition with_dev (f : Device -> Device) (w : World) : World :=
  {| vars := vars w; dev := f (dev w); clock := clock w; trace := trace w |}.

Definition set_lastStable (b : bool) : M unit :=
  modify (with_vars (fun v =>
    {| lastStable := b; lastRead := lastRead v; lastBounceAt := lastBounceAt v;
       dirty := dirty v; windowDeadline := windowDeadline v |})).
Definition set_lastRead (b : bool) : M unit :=
  modify (with_vars (fun v =>
    {| lastStable := lastStable v; lastRead := b; lastBounceAt := lastBounceAt v;
       dirty := dirty v; windowDeadline := windowDeadline v |})).
Definition set_lastBounceAt (t : Z) : M unit :=
  modify (with_vars (fun v =>
    {| lastStable := lastStable v; lastRead := lastRead v; lastBounceAt := t;
       dirty := dirty v; windowDeadline := windowDeadline v |})).
Definition set_dirty (b : bool) : M unit :=
  modify (with_vars (fun v =>
    {| lastStable := lastStable v; lastRead := lastRead v;
       lastBounceAt := lastBounceAt v;
       dirty := b; windowDeadline := windowDeadline v |})).
Definition set_windowDeadline (t : Z) : M unit :=
  modify (with_vars (fun v =>
    {| lastStable := lastStable v; lastRead := lastRead v;
       lastBounceAt := lastBounceAt v;
       dirty := dirty v; windowDeadline := t |})).

(** ** Primitives of the board and the libraries *)

Definition emit (ev : Event) : M unit :=
  modify (fun w => {| vars := vars w; dev := dev w; clock := clock w;
                      trace := trace w ++ [ev] |}).

Definition elapse (ms : Z) : M unit :=
  modify (fun w => {| vars := vars w; dev := dev w; clock := clock w + ms;
                      trace := trace w |}).

Definition millis : M Z := gets (fun w => wrap (clock w)).
Definition delay (ms : Z) : M unit := elapse ms.
Definition yield : M unit := ret tt.

Definition digitalRead (pin : Z) : M Z := ask pin_level.

Definition Serial_begin (baud : Z) : M unit := emit (SerialBegin baud).
Definition Serial_print (s : string) : M unit := emit (SerialPrint s).
Definition Serial_println (s : string) : M unit := emit (SerialPrintln s).
Definition pinMode_INPUT_PULLUP (pin : Z) : M unit := emit (PinModePullup pin).

(** [WiFi.status() == WL_CONNECTED].  With the radio off the answer is
    no; with the radio on it is what the environment [seen] says, and the
    device remembers it. *)
Definition WiFi_connected (seen : bool) : M bool :=
  modify (with_dev (fun d =>
    {| radio := radio d; link := radio d && seen; session := session d |}));;
  gets (fun w => link (dev w)).

Definition WiFi_disconnect (wifioff : bool) : M unit :=
  modify (with_dev (fun d =>
    {| radio := if wifioff then false else radio d; link := false;
       session := session d |}));;
  emit (WifiDisconnect wifioff).

Definition WiFi_persistent (b : bool) : M unit := emit (WifiPersistent b).

Definition WiFi_mode (m : WiFiMode) : M unit :=
  modify (with_dev (fun d =>
    match m with
    | WIFI_OFF => {| radio := false; link := false; session := session d |}
    | WIFI_STA => {| radio := true; link := link d; session := session d |}
    end));;
  emit (WifiSetMode m).

Definition WiFi_forceSleepBegin : M unit :=
  modify (with_dev (fun d =>
    {| radio := false; link := false; session := session d |}));;
  emit WifiForceSleepBegin.

Definition WiFi_forceSleepWake : M unit := emit WifiForceSleepWake.
Definition WiFi_setAutoReconnect (b : bool) : M unit :=
  emit (WifiSetAutoReconnect b).
Definition WiFi_begin (ssid pass : string) : M unit :=
  emit (WifiBegin ssid pass).

(** [mqtt.connected()]: a session that was up is still up when the
    environment says it [survived]; a lost session stays lost. *)
Definition mqtt_connected (survived : bool) : M bool :=
  modify (with_dev (fun d =>
    {| radio := radio d; link := link d; session := session d && survived |}));;
  gets (fun w => session (dev w)).

Definition mqtt_setServer (host : string) (port : Z) : M unit :=
  emit (MqttSetServer host port).

Definition mqtt_connect (o : Outcome) (cid : string)
    (cred : option (string * string))
    (willTopic : string) (willQos : Z) (willRetain : bool) (willMsg : string)
    : M bool :=
  elapse (Z.of_N (took o));;
  modify (with_dev (fun d =>
    {| radio := radio d; link := link d; session := ok o |}));;
  emit (MqttConnect cid cred willTopic willQos willRetain willMsg (ok o));;
  ret (ok o).

(** [mqtt.publish]: refused without a live session. *)
Definition mqtt_publish (o : Outcome) (topic payload : string)
    (retained : bool) : M bool :=
  elapse (Z.of_N (took o));;
  live <- gets (fun w => session (dev w));;
  emit (MqttPublish topic payload retained (live && ok o));;
  ret (live && ok o).

Definition mqtt_disconnect : M unit :=
  modify (with_dev (fun d =>
    {| radio := radio d; link := link d; session := false |}));;
  emit MqttDisconnect.

Definition mqtt_loop : M unit := emit MqttLoop.

(** ** The sketch *)

Section Sketch.

Variable secrets : Secrets.

Definition readLogical : M bool :=
  v <- digitalRead SWITCH_PIN;;
  let active := (v =? LOW) in
  let logicalOpen := if ACTIVE_LOW then negb active else active in
  ret logicalOpen.

Definition statusString (logicalOpen : bool) : string :=
  if logicalOpen then "open" else "closed".

Definition wifiRadioSleep : M unit :=
  mqtt_disconnect;;
  WiFi_disconnect true;;
  WiFi_persistent false;;
  WiFi_mode WIFI_OFF;;
  WiFi_forceSleepBegin;;
  delay 1.

(** Has the station associated, [wifi_join] ms after [WiFi.begin]? *)
Definition joined (began : Z) : M bool :=
  j <- ask wifi_join;;
  now <- gets clock;;
  ret match j with
      | Some d => began + Z.of_N d <=? now
      | None => false
      end.

(** The polling loop of [wifiEnsureConnected].  [budget] bounds the
    number of passes; running out of it is divergence. *)
Fixpoint wifiWait (budget : nat) (began start timeoutMs : Z) : M unit :=
  seen <- joined began;;
  up <- WiFi_connected seen;;
  if negb up then
    now <- millis;;
    if wrap (now - start) <? timeoutMs then
      match budget with
      | O => diverge
      | S budget' =>
          delay 50;;
          yield;;
          wifiWait budget' began start timeoutMs
      end
    else ret tt
  else ret tt.

Definition wifiEnsureConnected (timeoutMs : Z) : M bool :=
  seen <- ask link_pre;;
  up <- WiFi_connected seen;;
  if up then ret true else
  WiFi_forceSleepWake;;
  delay 1;;
  WiFi_mode WIFI_STA;;
  WiFi_persistent false;;
  WiFi_setAutoReconnect false;;
  WiFi_begin (WIFI_SSID secrets) (WIFI_PASS secrets);;
  began <- gets clock;;
  start <- millis;;
  wifiWait (Z.to_nat (timeoutMs / 50 + 1)) began start timeoutMs;;
  seen' <- joined began;;
  WiFi_connected seen'.

Definition makeClientId : string := ("esp-" ++ CLIENT_SUFFIX secrets)%string.

Definition mqttConnect (hs : Handshake) : M bool :=
  mqtt_setServer (MQTT_HOST secrets) (MQTT_PORT secrets);;
  let cid := makeClientId in
  let willTopic := TOPIC_ONLINE in
  let willMsg := "false" in
  let willRetain := true in
  let willQos := 0 in
  ok <- (if (0 <? String.length (MQTT_USER secrets))%nat
            || (0 <? String.length (MQTT_PASS secrets))%nat
         then mqtt_connect (hs_connect hs) cid
                (Some (MQTT_USER secrets, MQTT_PASS secrets))
                willTopic willQos willRetain willMsg
         else mqtt_connect (hs_connect hs) cid None
                willTopic willQos willRetain willMsg);;
  when ok (_ <- mqtt_publish (hs_birth hs) TOPIC_ONLINE "true" true;; ret tt);;
  ret ok.

Definition publishStatus (logicalOpen : bool) : M bool :=
  let payload := statusString logicalOpen in
  o <- ask status_pub;;
  ok <- mqtt_publish o TOPIC_STATUS payload true;;
  when ok (
    now <- millis;;
    set_windowDeadline (wrap (now + WINDOW_MS));;
    set_dirty false);;
  ret ok.

Definition ensureMqttAndPublishIfDirty : M unit :=
  d <- var dirty;;
  if negb d then ret tt else
  seen <- ask link_pre;;
  up <- WiFi_connected seen;;
  when (negb up) (Serial_println "WiFi: connecting...");;
  linked <- wifiEnsureConnected 8000;;
  if negb linked then Serial_println "WiFi: connect failed" else
  let publish :=
    s <- var lastStable;;
    sent <- publishStatus s;;
    if sent then
      Serial_print "MQTT: published status = ";;
      s' <- var lastStable;;
      Serial_println (statusString s')
    else Serial_println "MQTT: publish failed" in
  survived <- ask sess_pre;;
  live <- mqtt_connected survived;;
  if negb live then
    Serial_println "MQTT: connecting...";;
    hs <- ask hs_pub;;
    connected <- mqttConnect hs;;
    if negb connected then Serial_println "MQTT: connect failed" else publish
  else publish.

Definition setup : M unit :=
  Serial_begin 115200;;
  delay 10;;
  Serial_println "";;
  Serial_println "Garage monitor starting...";;
  pinMode_INPUT_PULLUP SWITCH_PIN;;
  r <- readLogical;;
  set_lastStable r;;
  set_lastRead r;;
  now <- millis;;
  set_lastBounceAt now;;
  wifiRadioSleep;;
  when PUBLISH_ON_BOOT (
    set_dirty true;;
    ensureMqttAndPublishIfDirty).

(** Step 1 of [loop]: read switch with debounce. *)
Definition loop_debounce : M unit :=
  nowRead <- readLogical;;
  r <- var lastRead;;
  when (negb (Bool.eqb nowRead r)) (
    set_lastRead nowRead;;
    now <- millis;;
    set_lastBounceAt now);;
  now <- millis;;
  at_ <- var lastBounceAt;;
  s <- var lastStable;;
  r' <- var lastRead;;
  when ((DEBOUNCE_MS <=? wrap (now - at_)) && negb (Bool.eqb s r')) (
    set_lastStable r';;
    set_dirty true;;
    Serial_print "door: ";;
    s' <- var lastStable;;
    Serial_println (statusString s')).

(** Step 3 of [loop]: maintain connection during the window. *)
Definition loop_window : M unit :=
  survived <- ask sess_post;;
  live <- mqtt_connected survived;;
  if live then
    mqtt_loop;;
    d <- var dirty;;
    now <- millis;;
    deadline <- var windowDeadline;;
    when (negb d && (0 <=? as_long (now - deadline))) (
      Serial_println "Window expired. Sleeping Wi-Fi.";;
      wifiRadioSleep)
  else
    seen <- ask link_post;;
    up <- WiFi_connected seen;;
    deadline <- var windowDeadline;;
    now <- millis;;
    when (up && negb (deadline =? 0) && (now <=? deadline)) (
      Serial_println "MQTT: reconnecting during window...";;
      hs <- ask hs_re;;
      _ <- mqttConnect hs;;
      ret tt).

Definition loop : M unit :=
  loop_debounce;;
  ensureMqttAndPublishIfDirty;;
  loop_window;;
  delay 10.

(** ** Executions *)

(** [run es w]: the passes of [loop] under the environments [es]. *)
Fixpoint run (es : list Env) (w : World) : option World :=
  match es with
  | [] => Some w
  | e :: es' =>
      match loop e w with
      | Some (_, w') => run es' w'
      | None => None
      end
  end.

(** Power-on, [setup] under [e0], then the passes [es]. *)
Definition boot (d0 : Device) (e0 : Env) (es : list Env) : option World :=
  match setup e0 (power_on d0) with
  | Some (_, w) => run es w
  | None => None
  end.

End Sketch.

(** ** Observations on the log of calls *)

(** Events of waking the radio: none of them is a print, an MQTT call or
    a power-down. *)
Definition wake_event (ev : Event) : Prop :=
  match ev with
  | WifiForceSleepWake | WifiSetMode WIFI_STA | WifiPersistent false
  | WifiSetAutoReconnect false | WifiBegin _ _ => True
  | _ => False
  end.

(** The device with session dropped and radio powered down. *)
Definition dev_off : Device :=
  {| radio := false; link := false; session := false |}.

(** The calls of one [wifiRadioSleep]. *)
Definition teardown_events : list Event :=
  [MqttDisconnect; WifiDisconnect true; WifiPersistent false;
   WifiSetMode WIFI_OFF; WifiForceSleepBegin].

(** The calls the properties below speak about: MQTT connects and
    publishes, the radio power-down, the "door: " report of a debounced
    change, the announcement of a reconnect during the window and the
    three failure diagnostics. *)
Definition key (ev : Event) : bool :=
  match ev with
  | MqttPublish _ _ _ _ => true
  | MqttConnect _ _ _ _ _ _ _ => true
  | WifiForceSleepBegin => true
  | SerialPrint s => String.eqb s "door: "
  | SerialPrintln s =>
      String.eqb s "MQTT: reconnecting during window..."
      || String.eqb s "WiFi: connect failed"
      || String.eqb s "MQTT: connect failed"
      || String.eqb s "MQTT: publish failed"
  | _ => false
  end.

Definition keys (tr : list Event) : list Event := filter key tr.

(** Every [mqtt.publish] on the status topic: payload, retained flag and
    whether it was accepted. *)
Definition status_tried (tr : list Event) : list (string * bool * bool) :=
  flat_map (fun ev =>
    match ev with
    | MqttPublish t p r b =>
        if String.eqb t TOPIC_STATUS then [(p, r, b)] else []
    | _ => []
    end) tr.

(** The accepted ones: payload and retained flag. *)
Definition status_sent (tr : list Event) : list (string * bool) :=
  flat_map (fun ev =>
    match ev with
    | MqttPublish t p r b =>
        if String.eqb t TOPIC_STATUS && b then [(p, r)] else []
    | _ => []
    end) tr.

(** Every [mqtt.connect], with its result. *)
Definition connects (tr : list Event) : list bool :=
  flat_map (fun ev =>
    match ev with
    | MqttConnect _ _ _ _ _ _ b => [b]
    | _ => []
    end) tr.

Definition count (p : Event -> bool) (tr : list Event) : nat :=
  List.length (filter p tr).

(** Number of radio power-downs, that is of calls of [wifiRadioSleep]. *)
Definition teardowns : list Event -> nat :=
  count (fun ev => match ev with WifiForceSleepBegin => true | _ => false end).

(** Number of reconnects announced by step 3 of [loop]. *)
Definition reconnects : list Event -> nat :=
  count (fun ev =>
    match ev with
    | SerialPrintln s => String.eqb s "MQTT: reconnecting during window..."
    | _ => false
    end).

(** Number of debounced state changes reported by step 1 of [loop]. *)
Definition door_reports : list Event -> nat :=
  count (fun ev =>
    match ev with
    | SerialPrint s => String.eqb s "door: "
    | _ => false
    end).

(** The logical state a pin level maps to, as [readLogical] computes it. *)
Definition logical_of_level (v : Z) : bool :=
  let active := (v =? LOW) in
  if ACTIVE_LOW then negb active else active.

(** The credentials [mqttConnect] presents: the overload of
    [mqtt.connect] with user and password when either is non-empty. *)
Definition broker_cred (s : Secrets) : option (string * string) :=
  if (0 <? String.length (MQTT_USER s))%nat
     || (0 <? String.length (MQTT_PASS s))%nat
  then Some (MQTT_USER s, MQTT_PASS s) else None.

(** The calls of one [mqttConnect] under the handshake [hs]. *)
Definition handshake_events (s : Secrets) (hs : Handshake) : list Event :=
  [MqttSetServer (MQTT_HOST s) (MQTT_PORT s);
   MqttConnect (makeClientId s) (broker_cred s) TOPIC_ONLINE 0 true "false"
     (ok (hs_connect hs))]
  ++ (if ok (hs_connect hs)
      then [MqttPublish TOPIC_ONLINE "true" true (ok (hs_birth hs))]
      else []).

(** What the handshake of step 2 leaves among the [keys]: nothing when
    the session was still live, else an accepted connect and its birth
    message. *)
Definition handshake_keys (s : Secrets) (e : Env) (hsk : list Event) : Prop :=
  hsk = [] \/
  hsk = [MqttConnect (makeClientId s) (broker_cred s) TOPIC_ONLINE 0 true
           "false" true;
         MqttPublish TOPIC_ONLINE "true" true (ok (hs_birth (hs_pub e)))].

(** The four ways step 2 ends when a status is pending: from [w] to [w']
    with the calls [tr]. *)
Inductive Step2 (s : Secrets) (e : Env) (w w' : World) (tr : list Event)
  : Prop :=
| LinkFailed :
    (forall d, wifi_join e = Some d -> 8000 < Z.of_N d) ->
    vars w' = vars w ->
    session (dev w') = session (dev w) ->
    link (dev w') = false ->
    keys tr = [SerialPrintln "WiFi: connect failed"] ->
    Step2 s e w w' tr
| ConnectFailed :
    ok (hs_connect (hs_pub e)) = false ->
    vars w' = vars w ->
    session (dev w') = false ->
    link (dev w') = true ->
    keys tr = [MqttConnect (makeClientId s) (broker_cred s) TOPIC_ONLINE 0
                 true "false" false;
               SerialPrintln "MQTT: connect failed"] ->
    Step2 s e w w' tr
| PublishFailed hsk :
    ok (status_pub e) = false ->
    vars w' = vars w ->
    link (dev w') = true ->
    handshake_keys s e hsk ->
    keys tr = hsk ++
              [MqttPublish TOPIC_STATUS
                 (statusString (lastStable (vars w))) true false;
               SerialPrintln "MQTT: publish failed"] ->
    Step2 s e w w' tr
| Published hsk now :
    clock w <= now <= clock w' ->
    vars w' = {| lastStable := lastStable (vars w);
                 lastRead := lastRead (vars w);
                 lastBounceAt := lastBounceAt (vars w);
                 dirty := false;
                 windowDeadline := wrap (wrap now + WINDOW_MS) |} ->
    session (dev w') = true ->
    link (dev w') = true ->
    handshake_keys s e hsk ->
    keys tr = hsk ++
              [MqttPublish TOPIC_STATUS
                 (statusString (lastStable (vars w))) true true] ->
    Step2 s e w w' tr.

(** The two tests of step 3, as [loop] writes them: the window has
    expired with nothing pending ([!dirty && (long)(millis() -
    windowDeadline) >= 0]), and a window is open ([windowDeadline != 0 &&
    millis() <= windowDeadline]); [now] is the value of [millis()]. *)
Definition expired_idle (v : Vars) (now : Z) : bool :=
  negb (dirty v) && (0 <=? as_long (now - windowDeadline v)).

Definition window_open (v : Vars) (now : Z) : bool :=
  negb (windowDeadline v =? 0) && (now <=? windowDeadline v).

(** The state in which [setup] enters [ensureMqttAndPublishIfDirty]:
    state initialised from the first reading, radio put to sleep, status
    marked unsent. *)
Definition booted (e : Env) : World :=
  let r := logical_of_level (pin_level e) in
  {| vars := {| lastStable := r; lastRead := r; lastBounceAt := wrap 10;
                dirty := true; windowDeadline := 0 |};
     dev := dev_off;
     clock := 11;
     trace := [SerialBegin 115200; SerialPrintln "";
               SerialPrintln "Garage monitor starting...";
               PinModePullup SWITCH_PIN] ++ teardown_events |}.

(** ** Sample configuration and environments *)

Definition sample_secrets : Secrets :=
  {| WIFI_SSID := "home"; WIFI_PASS := "secret";
     MQTT_HOST := "192.168.1.29"; MQTT_PORT := 1883;
     MQTT_USER := ""; MQTT_PASS := ""; CLIENT_SUFFIX := "a1b2c3" |}.

Definition accepted : Handshake :=
  {| hs_connect := {| ok := true; took := 0 |};
     hs_birth := {| ok := true; took := 0 |} |}.

Definition refused : Handshake :=
  {| hs_connect := {| ok := false; took := 0 |};
     hs_birth := {| ok := false; took := 0 |} |}.

(** Everything works: the station associates at once, the broker accepts
    connects and publishes, link and session survive.  The switch reads
    [level]. *)
Definition fair (level : Z) : Env :=
  {| pin_level := level; link_pre := true; wifi_join := Some 0%N;
     sess_pre := true; hs_pub := accepted;
     status_pub := {| ok := true; took := 0 |};
     sess_post := true; link_post := true; hs_re := accepted |}.

(** Nothing works: no access point, no broker; link and session are
    lost.  The switch reads [level]. *)
Definition cut_off (level : Z) : Env :=
  {| pin_level := level; link_pre := false; wifi_join := None;
     sess_pre := false; hs_pub := refused;
     status_pub := {| ok := false; took := 0 |};
     sess_post := false; link_post := false; hs_re := refused |}.

(** The log of a boot in which everything works and the door is closed,
    and the state a device is in when, after such a boot, session and
    link were lost: nothing pending, the window of the boot publish
    running until 600012, the radio still powered. *)
Definition fair_boot_trace : list Event :=
  Eval vm_compute in
    match setup sample_secrets (fair LOW) (power_on dev_off) with
    | Some (_, w) => trace w
    | None => []
    end.

Definition stranded (now : Z) : World :=
  {| vars := {| lastStable := false; lastRead := false; lastBounceAt := 10;
                dirty := false; windowDeadline := 600012 |};
     dev := {| radio := true; link := false; session := false |};
     clock := now;
     trace := fair_boot_trace |}.

(** The most recent element of a chronological list. *)
Definition latest {A} (l : list A) : option A :=
  match rev l with
  | [] => None
  | x :: _ => Some x
  end.

(** Birth/will pairing on a log: every [mqtt.connect] registers the
    will "false", retained, on the availability topic, and an accepted
    one is followed at once by the publish of "true", retained, on that
    topic. *)
Fixpoint paired (tr : list Event) : Prop :=
  match tr with
  | [] => True
  | MqttConnect _ _ willTopic _ willRetain willMsg b :: rest =>
      willTopic = TOPIC_ONLINE /\ willRetain = true /\ willMsg = "false"
      /\ (b = true ->
          exists sent rest',
            rest = MqttPublish TOPIC_ONLINE "true" true sent :: rest')
      /\ paired rest
  | _ :: rest => paired rest
  end.

(** Number of failure diagnostics of step 2: link, broker connect or
    publish failed. *)
Definition failures : list Event -> nat :=
  count (fun ev =>
    match ev with
    | SerialPrintln s =>
        String.eqb s "WiFi: connect failed"
        || String.eqb s "MQTT: connect failed"
        || String.eqb s "MQTT: publish failed"
    | _ => false
    end).

(** A contiguous dirty period: passes [es] from [w] to [w'] such that a
    status is pending when each of them enters step 2 and still pending
    after each of them but the last, which ends with nothing pending. *)
Inductive dirty_period (s : Secrets) : World -> list Env -> World -> Prop :=
| period_sent e w w1 w' :
    loop_debounce e w = Some (tt, w1) -> dirty (vars w1) = true ->
    loop s e w = Some (tt, w') -> dirty (vars w') = false ->
    dirty_period s w [e] w'
| period_unsent e es w w1 w' w'' :
    loop_debounce e w = Some (tt, w1) -> dirty (vars w1) = true ->
    loop s e w = Some (tt, w') -> dirty (vars w') = true ->
    dirty_period s w' es w'' ->
    dirty_period s w (e :: es) w''.

(** An environment in which a pending status can be sent: the access
    point answers within the 8 s allowed, the broker accepts the connect
    and the publish. *)
Definition cooperative (e : Env) : Prop :=
  (exists d, wifi_join e = Some d /\ Z.of_N d <= 8000)
  /\ ok (hs_connect (hs_pub e)) = true
  /\ ok (status_pub e) = true.

(** Every attempted status publish of the log carries [payload],
    retained. *)
Definition all_status (payload : string) (tr : list Event) : Prop :=
  Forall (fun x => fst (fst x) = payload /\ snd (fst x) = true)
         (status_tried tr).

(** The samples of the switch taken by the passes [es] from [w]: the
    time of the pass (ms since power-on) and the logical level read. *)
Fixpoint samples (s : Secrets) (es : list Env) (w : World) : list (Z * bool) :=
  match es with
  | [] => []
  | e :: es' =>
      (clock w, logical_of_level (pin_level e))
      :: match loop s e w with
         | Some (_, w') => samples s es' w'
         | None => []
         end
  end.

(** Every bounce is shorter than the debounce interval: in each run of
    consecutive samples away from [rest], the last one is taken less
    than [DEBOUNCE_MS] after the first.  [since] is the time of the first
    sample of the run in progress, if any. *)
Fixpoint bounces_short (rest : bool) (since : option Z)
    (xs : list (Z * bool)) : Prop :=
  match xs with
  | [] => True
  | (t, r) :: xs' =>
      if Bool.eqb r rest then bounces_short rest None xs'
      else
        let t0 := match since with Some t0 => t0 | None => t end in
        t - t0 < DEBOUNCE_MS /\ bounces_short rest (Some t0) xs'
  end.

(** The level [level] is sustained: every sample reads it, within
    2^32 ms of the first one, and some sample is taken at least
    [DEBOUNCE_MS] after the first. *)
Definition sustained (level : bool) (xs : list (Z * bool)) : Prop :=
  match xs with
  | [] => False
  | (t1, _) :: _ =>
      Forall (fun x => snd x = level /\ fst x - t1 < 2 ^ 32) xs
      /\ Exists (fun x => DEBOUNCE_MS <= fst x - t1) xs
  end.

(** The tracker while the level [negb s] is being sustained since [t1]:
    not yet committed (stable state [s], bounce timer at [t1]), or
    committed. *)
Definition tracking (s : bool) (t1 : Z) (committed : bool) (w : World)
  : Prop :=
  lastRead (vars w) = negb s
  /\ if committed then lastStable (vars w) = negb s
     else lastStable (vars w) = s
          /\ lastBounceAt (vars w) = wrap t1 /\ t1 <= clock w.

(** The broker drops the session while the link stays up; a reconnect
    would be accepted.  The switch reads [level]. *)
Definition broker_drop (level : Z) : Env :=
  {| pin_level := level; link_pre := true; wifi_join := Some 0%N;
     sess_pre := false; hs_pub := accepted;
     status_pub := {| ok := true; took := 0 |};
     sess_post := false; link_post := true; hs_re := accepted |}.

(** The link is up but the broker refuses everything.  The switch reads
    [level]. *)
Definition broker_drop_refused (level : Z) : Env :=
  {| pin_level := level; link_pre := true; wifi_join := Some 0%N;
     sess_pre := false; hs_pub := refused;
     status_pub := {| ok := false; took := 0 |};
     sess_post := false; link_post := true; hs_re := refused |}.

(** Number of [mqtt.connect] and [mqtt.publish] calls. *)
Definition mqtt_calls : list Event -> nat :=
  count (fun ev =>
    match ev with
    | MqttConnect _ _ _ _ _ _ _ | MqttPublish _ _ _ _ => true
    | _ => false
    end).

(** The broker refuses the connect of step 2 and accepts the one of
    step 3, a moment later; the link is up and the session is lost.  The
    switch reads [level]. *)
Definition broker_flaky (level : Z) : Env :=
  {| pin_level := level; link_pre := true; wifi_join := Some 0%N;
     sess_pre := false; hs_pub := refused;
     status_pub := {| ok := true; took := 0 |};
     sess_post := false; link_post := true; hs_re := accepted |}.

(** The calls by which [wifiEnsureConnected] wakes the radio and starts
    the association. *)
Definition wake_calls (s : Secrets) : list Event :=
  [WifiForceSleepWake; WifiSetMode WIFI_STA; WifiPersistent false;
   WifiSetAutoReconnect false; WifiBegin (WIFI_SSID s) (WIFI_PASS s)].

(** Number of times the radio is woken. *)
Definition wakes : list Event -> nat :=
  count (fun ev => match ev with WifiForceSleepWake => true | _ => false end).

(** The time spent inside the blocking [mqtt.connect] and [mqtt.publish]
    calls logged in [tr], the log of one pass of [loop] or of [setup]
    under [e].  A status publish takes [took (status_pub e)]; a connect
    and the birth publish after it take what the handshake they belong to
    takes: that of step 2, or that of step 3 once the reconnect has been
    announced ([re]). *)
Fixpoint call_time (e : Env) (re : bool) (tr : list Event) : Z :=
  match tr with
  | [] => 0
  | SerialPrintln s :: rest =>
      call_time e (re || String.eqb s "MQTT: reconnecting during window...")
        rest
  | MqttConnect _ _ _ _ _ _ _ :: rest =>
      Z.of_N (took (hs_connect (if re then hs_re e else hs_pub e)))
      + call_time e re rest
  | MqttPublish t _ _ _ :: rest =>
      Z.of_N (took (if String.eqb t TOPIC_STATUS then status_pub e
                    else hs_birth (if re then hs_re e else hs_pub e)))
      + call_time e re rest
  | _ :: rest => call_time e re rest
  end.

(** With the radio powered down there is neither link nor session. *)
Definition device_sane (d : Device) : Prop :=
  radio d = false -> link d = false /\ session d = false.

(** An environment in which the door stays at [level] and the broker
    session survives. *)
Definition steady (level : bool) (e : Env) : Prop :=
  logical_of_level (pin_level e) = level /\ sess_post e = true.

(** A state that keeps a session alive inside the window opened by a
    publish at time [since]: at rest at [level], nothing pending. *)
Definition in_window (level : bool) (since : Z) (w : World) : Prop :=
  lastRead (vars w) = level /\ lastStable (vars w) = level
  /\ dirty (vars w) = false
  /\ windowDeadline (vars w) = wrap (wrap since + WINDOW_MS)
  /\ session (dev w) = true
  /\ since <= clock w.

(** What the sketch may put on the wire: a publish is retained and is
    either a door status, "open" or "closed", on the status topic or the
    birth message "true" on the availability topic; a connect presents
    the client id of [makeClientId] and the configured credentials and
    registers the will "false", retained, QoS 0, on the availability
    topic. *)
Definition wire_ok (s : Secrets) (ev : Event) : Prop :=
  match ev with
  | MqttPublish t p r _ =>
      r = true
      /\ (t = TOPIC_STATUS /\ (p = "open" \/ p = "closed")
          \/ t = TOPIC_ONLINE /\ p = "true")
  | MqttConnect cid cred willTopic willQos willRetain willMsg _ =>
      cid = makeClientId s /\ cred = broker_cred s
      /\ willTopic = TOPIC_ONLINE /\ willQos = 0 /\ willRetain = true
      /\ willMsg = "false"
  | _ => True
  end.

(** The tracker of step 1 after a change of the stable state at time
    [tc]: the last reading agrees with the stable state, or the bounce
    timer was started at or after [tc]. *)
Definition settled_since (tc : Z) (w : World) : Prop :=
  tc <= clock w
  /\ (lastRead (vars w) = lastStable (vars w)
      \/ exists tb, lastBounceAt (vars w) = wrap tb /\ tc <= tb <= clock w).

(** Two states of a device that booted in a fair environment with the
    door closed and published at 12 ms, at time [now]: the session still
    alive, and asleep with the radio powered down. *)
Definition kept_alive (now : Z) : World :=
  {| vars := vars (stranded now);
     dev := {| radio := true; link := true; session := true |};
     clock := now;
     trace := fair_boot_trace |}.

Definition asleep (now : Z) : World :=
  {| vars := vars (stranded now);
     dev := dev_off;
     clock := now;
     trace := fair_boot_trace |}.

(** * Verification *)

(** ** Arithmetic of [wrap] *)

Lemma wrap_small z : 0 <= z < 2 ^ 32 -> wrap z = z.
Proof. intros. unfold wrap. apply Z.mod_small. assumption. Qed.

Lemma wrap_sub_wrap a b : wrap (wrap a - wrap b) = wrap (a - b).
Proof. unfold wrap. rewrite <- Zminus_mod. reflexivity. Qed.

(** ** Observations and concatenation *)

Lemma keys_app a b : keys (a ++ b) = keys a ++ keys b.
Proof. apply filter_app. Qed.

Lemma keys_wake tr : Forall wake_event tr -> keys tr = [].
Proof.
  induction 1 as [|ev tr Hev _ IH]; [reflexivity|].
  unfold keys in *. cbn [filter]. rewrite IH.
  destruct ev as [| | | | | | |[]|[]|[]| | | | | |]; cbn in Hev |- *;
    solve [reflexivity | contradiction].
Qed.

Lemma status_tried_app a b :
  status_tried (a ++ b) = status_tried a ++ status_tried b.
Proof. apply flat_map_app. Qed.

Lemma status_sent_app a b :
  status_sent (a ++ b) = status_sent a ++ status_sent b.
Proof. apply flat_map_app. Qed.

Lemma connects_app a b : connects (a ++ b) = connects a ++ connects b.
Proof. apply flat_map_app. Qed.

Lemma count_app p a b : count p (a ++ b) = (count p a + count p b)%nat.
Proof. unfold count. rewrite filter_app. apply length_app. Qed.

Lemma flat_map_keys {X} (f : Event -> list X) :
  (forall ev, key ev = false -> f ev = []) ->
  forall tr, flat_map f (keys tr) = flat_map f tr.
Proof.
  intros Hf. induction tr as [|ev tr IH]; [reflexivity|].
  unfold keys in *. cbn [filter flat_map].
  destruct (key ev) eqn:Hk.
  - cbn [flat_map]. now rewrite IH.
  - rewrite (Hf ev Hk). exact IH.
Qed.

Lemma count_keys (p : Event -> bool) :
  (forall ev, key ev = false -> p ev = false) ->
  forall tr, count p (keys tr) = count p tr.
Proof.
  intros Hp. induction tr as [|ev tr IH]; [reflexivity|].
  unfold keys, count in *. cbn [filter].
  destruct (key ev) eqn:Hk.
  - cbn [filter]. destruct (p ev); cbn [List.length]; now rewrite IH.
  - rewrite (Hp ev Hk). exact IH.
Qed.

Lemma status_tried_keys tr : status_tried (keys tr) = status_tried tr.
Proof.
  apply flat_map_keys. intros [] Hk; try reflexivity; discriminate.
Qed.

Lemma status_sent_keys tr : status_sent (keys tr) = status_sent tr.
Proof.
  apply flat_map_keys. intros [] Hk; try reflexivity; discriminate.
Qed.

Lemma teardowns_keys tr : teardowns (keys tr) = teardowns tr.
Proof.
  apply count_keys. intros [] Hk; try reflexivity; discriminate.
Qed.

Lemma reconnects_keys tr : reconnects (keys tr) = reconnects tr.
Proof.
  apply count_keys. intros [] Hk; try reflexivity. cbn in Hk.
  apply orb_false_elim in Hk. destruct Hk as [Hk _].
  apply orb_false_elim in Hk. destruct Hk as [Hk _].
  apply orb_false_elim in Hk. tauto.
Qed.

Lemma door_reports_keys tr : door_reports (keys tr) = door_reports tr.
Proof.
  apply count_keys. intros [] Hk; try reflexivity. exact Hk.
Qed.

(** ** The polling loops return *)

(** Unfolding of the monad and of the primitives, keeping the 32-bit
    operations folded. *)
Arguments wrap : simpl never.
Arguments as_long : simpl never.
Arguments wifiEnsureConnected : simpl never.
Arguments wifiRadioSleep : simpl never.
Arguments mqttConnect : simpl never.
Arguments statusString : simpl never.
Arguments makeClientId : simpl never.
Arguments handshake_events : simpl never.
Arguments logical_of_level : simpl never.

Ltac prims :=
  cbv [bind ret ask gets var modify when diverge with_vars with_dev
       millis delay elapse yield emit digitalRead
       set_lastStable set_lastRead set_lastBounceAt set_dirty
       set_windowDeadline
       Serial_begin Serial_print Serial_println pinMode_INPUT_PULLUP
       WiFi_connected WiFi_disconnect WiFi_persistent WiFi_mode
       WiFi_forceSleepBegin WiFi_forceSleepWake WiFi_setAutoReconnect
       WiFi_begin mqtt_connected mqtt_setServer mqtt_connect mqtt_publish
       mqtt_disconnect mqtt_loop joined].

Ltac run_prog := prims; cbn -[Z.of_nat Z.to_nat Z.div].

(** Evaluate [keys] on a concrete log around the wake-up calls [Hwk]. *)
Ltac keys_eval Hwk :=
  unfold handshake_events;
  repeat match goal with H : ok _ = _ |- _ => rewrite H end;
  rewrite ?keys_app, ?(keys_wake _ Hwk); cbn; try reflexivity.

(** Replace the call of [f] in the goal by its value. *)
Ltac eval_call f :=
  match goal with
  | |- context [f ?s ?e ?w] =>
      let r := eval vm_compute in (f s e w) in
      change (f s e w) with r; cbv beta iota
  end.

(** Close a [Step2] goal with [Published], taking the time of the
    publish to be the final clock. *)
Ltac published_at_clock :=
  match goal with
  | |- Step2 _ _ _ {| vars := _; dev := _; clock := ?C; trace := _ |} _ =>
      eapply Published with (now := C)
  end.

(** The log [T] without its prefix [tr]. *)
Ltac suffix_of T tr :=
  lazymatch T with
  | tr ++ ?a => a
  | ?x ++ ?a => let p := suffix_of x tr in constr:(p ++ a)
  end.

(** Closes the accounting goal of one branch of step 2: the final state
    is explicit, [waited] is the time of the wait for the link. *)
Ltac account tr waited st :=
  unfold handshake_events;
  try match goal with H : ok (hs_connect _) = _ |- _ => rewrite ?H end;
  lazymatch goal with
  | |- exists w' seg _, Some (tt, ?W) = _ /\ _ =>
      let T := eval cbn [trace] in (trace W) in
      let sg := suffix_of T tr in
      exists W, sg, waited
  end;
  split; [reflexivity|];
  split; [cbn [trace]; rewrite <- ?app_assoc; reflexivity|];
  split; [destruct st; cbn -[Z.add Z.sub Z.of_N]; lia|];
  split; [lia|];
  split; [destruct st; reflexivity|];
  cbn [vars dirty]; intros Hd;
  [discriminate Hd || (eexists _, _; split; [reflexivity|auto])].

Section Proofs.

Variable secrets : Secrets.

Lemma wifiWait_returns budget began T e :
  forall v r l s c tr,
    0 <= T -> T + 50 <= 2 ^ 32 ->
    0 <= c - began < T + 50 ->
    T - (c - began) <= 50 * Z.of_nat budget ->
    exists l' c',
      wifiWait budget began (wrap began) T e
        {| vars := v; dev := {| radio := r; link := l; session := s |};
           clock := c; trace := tr |}
      = Some (tt, {| vars := v;
                     dev := {| radio := r; link := l'; session := s |};
                     clock := c'; trace := tr |})
      /\ c <= c'
      /\ l' = r && match wifi_join e with
                   | Some d => began + Z.of_N d <=? c'
                   | None => false
                   end
      /\ (l' = false -> r = true ->
          forall d, wifi_join e = Some d -> T < Z.of_N d).
Proof.
  induction budget as [|n IH]; intros v r l s c tr HT0 HT Hel Hb;
    cbn [wifiWait]; run_prog;
    set (up := r && _); destruct up eqn:Hup; run_prog;
    try (eexists _, _; split; [reflexivity|];
         split; [lia|]; split; [symmetry; exact Hup | discriminate]);
    rewrite wrap_sub_wrap, wrap_small by lia;
    destruct (c - began <? T) eqn:Hlt; run_prog.
  - apply Z.ltb_lt in Hlt. lia.
  - eexists _, _. split; [reflexivity|]. split; [lia|].
    split; [symmetry; exact Hup|].
    intros _ -> d Hd. subst up. rewrite Hd in Hup. cbn in Hup.
    apply Z.leb_gt in Hup. apply Z.ltb_ge in Hlt. lia.
  - apply Z.ltb_lt in Hlt.
    destruct (IH v r false s (c + 50) tr) as (l' & c' & Heq & Hc & Hl & Hj);
      try lia.
    rewrite Heq. eexists _, _. split; [reflexivity|]. split; [lia|].
    split; assumption.
  - eexists _, _. split; [reflexivity|]. split; [lia|].
    split; [symmetry; exact Hup|].
    intros _ -> d Hd. subst up. rewrite Hd in Hup. cbn in Hup.
    apply Z.leb_gt in Hup. apply Z.ltb_ge in Hlt. lia.
Qed.

Lemma wifiEnsureConnected_returns e w :
  exists b r c tr,
    wifiEnsureConnected secrets 8000 e w
    = Some (b, {| vars := vars w;
                  dev := {| radio := r; link := b; session := session (dev w) |};
                  clock := c; trace := trace w ++ tr |})
    /\ clock w <= c /\ Forall wake_event tr
    /\ (b = false -> forall d, wifi_join e = Some d -> 8000 < Z.of_N d).
Proof.
  destruct w as [v [r l s] c tr]. unfold wifiEnsureConnected.
  assert (8000 <= 50 * Z.of_nat (Z.to_nat (8000 / 50 + 1))) as Hbudget
    by (change (8000 / 50 + 1) with 161; lia).
  revert Hbudget. generalize (Z.to_nat (8000 / 50 + 1)) as budget.
  intros budget Hbudget. run_prog.
  destruct (r && link_pre e) eqn:Hup; run_prog.
  - exists true, r, c, []. rewrite app_nil_r.
    repeat split; [lia | constructor | discriminate].
  - destruct (wifiWait_returns budget (c + 1) 8000 e
                v true false s (c + 1)
                (((((tr ++ [WifiForceSleepWake]) ++ [WifiSetMode WIFI_STA])
                   ++ [WifiPersistent false]) ++ [WifiSetAutoReconnect false])
                   ++ [WifiBegin (WIFI_SSID secrets) (WIFI_PASS secrets)]))
      as (l' & c' & Heq & Hc & Hl & Hj); try lia.
    rewrite Heq. run_prog. cbn [andb] in Hl. rewrite <- Hl.
    eexists _, true, c', _. repeat rewrite <- app_assoc. cbn [app].
    repeat split; [lia | repeat constructor | intros ->; auto].
Qed.

(** ** Teardown *)

Lemma wifiRadioSleep_eq e w :
  wifiRadioSleep e w
  = Some (tt, {| vars := vars w; dev := dev_off; clock := clock w + 1;
                 trace := trace w ++ teardown_events |}).
Proof.
  destruct w as [v [r l s] c tr]. cbn [vars dev clock trace].
  change teardown_events
    with ([MqttDisconnect] ++ [WifiDisconnect true] ++ [WifiPersistent false]
          ++ [WifiSetMode WIFI_OFF] ++ [WifiForceSleepBegin]).
  rewrite !app_assoc. reflexivity.
Qed.

(** C8 (idempotent teardown).  From any connectivity state
    [wifiRadioSleep] returns, with the broker session dropped and the
    radio powered down (state [RadioOff]) and the sketch's variables
    untouched; a second call in a row returns as well and leaves the same
    connectivity state and variables as the first. *)
Theorem teardown_idempotent :
  forall (e e' : Env) (w : World),
  exists w1 w2,
    wifiRadioSleep e w = Some (tt, w1)
    /\ wifiRadioSleep e' w1 = Some (tt, w2)
    /\ session (dev w1) = false /\ radio (dev w1) = false
    /\ conn_state (dev w1) = RadioOff
    /\ vars w1 = vars w
    /\ dev w2 = dev w1 /\ vars w2 = vars w1
    /\ conn_state (dev w2) = RadioOff.
Proof.
  intros e e' w. eexists _, _.
  split; [apply wifiRadioSleep_eq|].
  split; [apply wifiRadioSleep_eq|].
  cbn. repeat split.
Qed.
(** ** The three steps of one pass *)

(** Step 1 in closed form.  [raw] is the logical read, [at'] the bounce
    timestamp after the read was latched, [commit] whether the stable
    state changes. *)
Lemma loop_debounce_eq e w :
  let raw := logical_of_level (pin_level e) in
  let at' := if Bool.eqb raw (lastRead (vars w))
             then lastBounceAt (vars w) else wrap (clock w) in
  let commit := (DEBOUNCE_MS <=? wrap (wrap (clock w) - at'))
                && negb (Bool.eqb (lastStable (vars w)) raw) in
  loop_debounce e w
  = Some (tt,
      {| vars := {| lastStable := if commit then raw else lastStable (vars w);
                    lastRead := raw;
                    lastBounceAt := at';
                    dirty := if commit then true else dirty (vars w);
                    windowDeadline := windowDeadline (vars w) |};
         dev := dev w;
         clock := clock w;
         trace := trace w ++
                  (if commit
                   then [SerialPrint "door: "; SerialPrintln (statusString raw)]
                   else []) |}).
Proof.
  destruct w as [[st rd ba di wd] d c tr]. unfold loop_debounce, readLogical.
  run_prog. unfold logical_of_level. cbn.
  destruct (negb (pin_level e =? LOW)), rd; cbn;
    match goal with
    | |- context [ (?a <=? ?b) && _ ] => destruct (a <=? b)
    end; destruct st; cbn;
    rewrite ?app_nil_r, <- ?app_assoc; reflexivity.
Qed.
Lemma mqttConnect_eq hs e w :
  mqttConnect secrets hs e w
  = Some (ok (hs_connect hs),
      {| vars := vars w;
         dev := {| radio := radio (dev w); link := link (dev w);
                   session := ok (hs_connect hs) |};
         clock := clock w + Z.of_N (took (hs_connect hs))
                  + (if ok (hs_connect hs)
                     then Z.of_N (took (hs_birth hs)) else 0);
         trace := trace w ++ handshake_events secrets hs |}).
Proof.
  destruct w as [v [r l s] c tr]. unfold mqttConnect, handshake_events.
  unfold broker_cred.
  destruct ((0 <? String.length (MQTT_USER secrets))%nat
            || (0 <? String.length (MQTT_PASS secrets))%nat);
    run_prog; destruct (ok (hs_connect hs)); run_prog;
    rewrite <- ?app_assoc, ?Z.add_0_r; reflexivity.
Qed.
Lemma ensure_clean e w :
  dirty (vars w) = false ->
  ensureMqttAndPublishIfDirty secrets e w = Some (tt, w).
Proof.
  intros Hd. unfold ensureMqttAndPublishIfDirty. run_prog.
  rewrite Hd. reflexivity.
Qed.

Lemma ensure_dirty e w :
  dirty (vars w) = true ->
  exists w' tr,
    ensureMqttAndPublishIfDirty secrets e w = Some (tt, w')
    /\ trace w' = trace w ++ tr
    /\ clock w <= clock w'
    /\ Step2 secrets e w w' tr.
Proof.
  destruct w as [[st rd ba di wd] [r l s] c tr]. cbn. intros ->.
  unfold ensureMqttAndPublishIfDirty. run_prog.
  destruct (r && link_pre e) eqn:Hup; run_prog;
    match goal with
    | |- context [wifiEnsureConnected _ _ _ ?W] =>
        destruct (wifiEnsureConnected_returns e W)
          as (b & r' & c' & wk & Heq & Hc & Hwk & Hjoin); rewrite Heq; clear Heq
    end; cbn in Hc; destruct b; run_prog;
    try (destruct (s && sess_pre e) eqn:Hlive; run_prog);
    rewrite ?mqttConnect_eq; run_prog;
    try (destruct (ok (hs_connect (hs_pub e))) eqn:Hconn; run_prog);
    try (destruct (ok (status_pub e)) eqn:Hpub; run_prog);
    rewrite ?Hlive; run_prog;
    (eexists _, _; split; [reflexivity|]; cbn;
     split; [rewrite <- !app_assoc; reflexivity|]; split; [lia|]);
    destruct st;
    first
      [ solve [eapply LinkFailed; [exact (Hjoin eq_refl)|..]; cbn;
               try reflexivity; keys_eval Hwk]
      | solve [eapply ConnectFailed; [exact Hconn|..]; cbn;
               try reflexivity; keys_eval Hwk]
      | solve [eapply PublishFailed with (hsk := []); [exact Hpub|..]; cbn;
               [reflexivity | reflexivity | left; reflexivity | keys_eval Hwk]]
      | solve [eapply PublishFailed; [exact Hpub|..]; cbn;
               [reflexivity | reflexivity | right; reflexivity | keys_eval Hwk]]
      | solve [published_at_clock; cbn;
               [lia | reflexivity | reflexivity | reflexivity
               | left; reflexivity | keys_eval Hwk]]
      | solve [published_at_clock; cbn;
               [lia | reflexivity | reflexivity | reflexivity
               | right; reflexivity | keys_eval Hwk]]
      | idtac ].
Qed.

(** Step 3 in closed form. *)
Lemma loop_window_eq e w :
  loop_window secrets e w
  = Some (tt,
      if session (dev w) && sess_post e then
        if expired_idle (vars w) (wrap (clock w)) then
          {| vars := vars w; dev := dev_off; clock := clock w + 1;
             trace := trace w
                      ++ [MqttLoop;
                          SerialPrintln "Window expired. Sleeping Wi-Fi."]
                      ++ teardown_events |}
        else
          {| vars := vars w;
             dev := {| radio := radio (dev w); link := link (dev w);
                       session := true |};
             clock := clock w; trace := trace w ++ [MqttLoop] |}
      else
        if radio (dev w) && link_post e
           && window_open (vars w) (wrap (clock w)) then
          {| vars := vars w;
             dev := {| radio := radio (dev w); link := true;
                       session := ok (hs_connect (hs_re e)) |};
             clock := clock w + Z.of_N (took (hs_connect (hs_re e)))
                      + (if ok (hs_connect (hs_re e))
                         then Z.of_N (took (hs_birth (hs_re e))) else 0);
             trace := trace w
                      ++ [SerialPrintln "MQTT: reconnecting during window..."]
                      ++ handshake_events secrets (hs_re e) |}
        else
          {| vars := vars w;
             dev := {| radio := radio (dev w);
                       link := radio (dev w) && link_post e;
                       session := false |};
             clock := clock w; trace := trace w |}).
Proof.
  destruct w as [[st rd ba di wd] [r l s] c tr]. unfold loop_window.
  unfold expired_idle, window_open. run_prog.
  destruct (s && sess_post e) eqn:Hlive; run_prog.
  - destruct (negb di && _); run_prog.
    + rewrite wifiRadioSleep_eq. cbn. rewrite <- !app_assoc. reflexivity.
    + reflexivity.
  - destruct (r && link_post e) eqn:Hup; run_prog.
    + destruct (negb (wd =? 0) && _); run_prog.
      * rewrite mqttConnect_eq. cbn. rewrite <- !app_assoc. reflexivity.
      * reflexivity.
    + reflexivity.
Qed.


(** One pass is its three steps and the closing [delay(10)]; each of
    them returns. *)
Lemma loop_steps e w :
  exists w1 w2 w3,
    loop_debounce e w = Some (tt, w1)
    /\ ensureMqttAndPublishIfDirty secrets e w1 = Some (tt, w2)
    /\ loop_window secrets e w2 = Some (tt, w3)
    /\ loop secrets e w
       = Some (tt, {| vars := vars w3; dev := dev w3; clock := clock w3 + 10;
                      trace := trace w3 |}).
Proof.
  pose proof (loop_debounce_eq e w) as H1. cbv zeta in H1.
  match type of H1 with _ = Some (tt, ?W) => set (w1 := W) in * end.
  assert (exists w2, ensureMqttAndPublishIfDirty secrets e w1 = Some (tt, w2))
    as [w2 H2].
  { destruct (dirty (vars w1)) eqn:Hd.
    - destruct (ensure_dirty e w1 Hd) as (w2 & tr & H2 & _). eauto.
    - exists w1. apply ensure_clean, Hd. }
  pose proof (loop_window_eq e w2) as H3.
  match type of H3 with _ = Some (tt, ?W) => set (w3 := W) in * end.
  exists w1, w2, w3. repeat split; try assumption.
  unfold loop, bind. rewrite H1, H2, H3. reflexivity.
Qed.

Lemma loop_total e w : exists w', loop secrets e w = Some (tt, w').
Proof. destruct (loop_steps e w) as (w1 & w2 & w3 & _ & _ & _ & H). eauto. Qed.

Lemma run_total es : forall w, exists w', run secrets es w = Some w'.
Proof.
  induction es as [|e es IH]; intros w; cbn [run]; [eauto|].
  destruct (loop_total e w) as [w' ->]. apply IH.
Qed.

Lemma ensure_cases e w :
  exists w' tr,
    ensureMqttAndPublishIfDirty secrets e w = Some (tt, w')
    /\ trace w' = trace w ++ tr
    /\ clock w <= clock w'
    /\ (dirty (vars w) = false /\ w' = w /\ tr = []
        \/ dirty (vars w) = true /\ Step2 secrets e w w' tr).
Proof.
  destruct (dirty (vars w)) eqn:Hd.
  - destruct (ensure_dirty e w Hd) as (w' & tr & H & Ht & Hc & HS).
    exists w', tr. auto 10.
  - exists w, []. rewrite app_nil_r, (ensure_clean e w Hd).
    repeat split; auto; lia.
Qed.

Lemma setup_eq d0 e :
  setup secrets e (power_on d0)
  = ensureMqttAndPublishIfDirty secrets e (booted e).
Proof. reflexivity. Qed.

Lemma setup_total d0 e : exists w, setup secrets e (power_on d0) = Some (tt, w).
Proof.
  rewrite setup_eq.
  destruct (ensure_cases e (booted e)) as (w & tr & H & _). eauto.
Qed.

(** X1 (termination).  Every execution returns: [setup] and each pass of
    [loop] terminate, whatever the environment; in particular the wait
    loop of [wifiEnsureConnected] leaves within its time budget. *)
Theorem boot_total d0 e0 es : exists w, boot secrets d0 e0 es = Some w.
Proof.
  unfold boot. destruct (setup_total d0 e0) as [w ->]. apply run_total.
Qed.

(** ** Window reset law *)

Lemma teardowns_app a b :
  teardowns (a ++ b) = (teardowns a + teardowns b)%nat.
Proof. apply count_app. Qed.

Lemma reconnects_app a b :
  reconnects (a ++ b) = (reconnects a + reconnects b)%nat.
Proof. apply count_app. Qed.

Lemma door_reports_app a b :
  door_reports (a ++ b) = (door_reports a + door_reports b)%nat.
Proof. apply count_app. Qed.

Lemma step2_teardowns e w w' tr : Step2 secrets e w w' tr -> teardowns tr = 0%nat.
Proof.
  intros H. rewrite <- teardowns_keys.
  destruct H as [_ _ _ _ ->|_ _ _ _ ->|hsk _ _ _ [->| ->] ->
                |hsk now _ _ _ _ [->| ->] ->];
    reflexivity.
Qed.


(** Idle passes: nothing pending, no session, no link, the switch at
    rest.  Only the clock moves. *)
Lemma idle_passes level n :
  forall v r c tr,
    dirty v = false ->
    lastRead v = logical_of_level level ->
    lastStable v = logical_of_level level ->
    run secrets (repeat (cut_off level) n)
      {| vars := v; dev := {| radio := r; link := false; session := false |};
         clock := c; trace := tr |}
    = Some {| vars := v;
              dev := {| radio := r; link := false; session := false |};
              clock := c + 10 * Z.of_nat n; trace := tr |}.
Proof.
  induction n as [|n IH]; intros v r c tr Hd Hr Hs.
  - cbn. rewrite Z.add_0_r. reflexivity.
  - cbn [repeat run].
    destruct (loop_steps (cut_off level)
                {| vars := v;
                   dev := {| radio := r; link := false; session := false |};
                   clock := c; trace := tr |})
      as (w1 & w2 & w3 & H1 & H2 & H3 & ->).
    rewrite loop_debounce_eq in H1. cbn in H1.
    rewrite Hr, Hs, eqb_reflx, andb_false_r in H1. cbn in H1.
    rewrite app_nil_r in H1. injection H1 as <-.
    rewrite ensure_clean in H2 by (cbn; assumption). injection H2 as <-.
    rewrite loop_window_eq in H3. cbn in H3. rewrite andb_false_r in H3.
    cbn in H3. injection H3 as <-. cbn [vars dev clock trace].
    destruct v as [st rd ba di wd]. cbn [dirty lastRead lastStable] in *. subst.
    rewrite IH by reflexivity. f_equal. f_equal. lia.
Qed.

(** ** Executions from power-on *)

Lemma boot_ind d0 e0 (P : World -> Prop) :
  (forall w, setup secrets e0 (power_on d0) = Some (tt, w) -> P w) ->
  (forall e w w', P w -> loop secrets e w = Some (tt, w') -> P w') ->
  forall es w, boot secrets d0 e0 es = Some w -> P w.
Proof.
  intros Hsetup Hloop es w. unfold boot.
  destruct (setup secrets e0 (power_on d0)) as [[[] w0]|] eqn:H0; [|discriminate].
  specialize (Hsetup _ eq_refl). clear H0. revert w0 Hsetup.
  induction es as [|e es IH]; intros w0 HP; cbn [run].
  - intros [= <-]. exact HP.
  - destruct (loop secrets e w0) as [[[] w1]|] eqn:H1; [|discriminate].
    apply IH. eapply Hloop; eassumption.
Qed.

Lemma latest_snoc {A} (l : list A) x : latest (l ++ [x]) = Some x.
Proof. unfold latest. rewrite rev_app_distr. reflexivity. Qed.

Lemma status_sent_handshake hs : status_sent (handshake_events secrets hs) = [].
Proof. unfold handshake_events. destruct (ok (hs_connect hs)); reflexivity. Qed.

Lemma status_tried_handshake hs :
  status_tried (handshake_events secrets hs) = [].
Proof. unfold handshake_events. destruct (ok (hs_connect hs)); reflexivity. Qed.

(** What step 2 adds to the accepted and to the attempted status
    publishes. *)
Lemma step2_status e w w' tr :
  dirty (vars w) = true ->
  Step2 secrets e w w' tr ->
  let p := statusString (lastStable (vars w)) in
  (dirty (vars w') = true /\ vars w' = vars w /\ status_sent tr = []
   /\ (status_tried tr = [] \/ status_tried tr = [(p, true, false)]))
  \/ (dirty (vars w') = false /\ lastStable (vars w') = lastStable (vars w)
      /\ status_sent tr = [(p, true)] /\ status_tried tr = [(p, true, true)]).
Proof.
  intros Hd H p. subst p.
  rewrite <- (status_sent_keys tr), <- (status_tried_keys tr).
  destruct H as [_ Hv _ _ ->|_ Hv _ _ ->|hsk _ Hv _ [->| ->] ->
                |hsk now _ Hv _ _ [->| ->] ->];
    try (left; rewrite Hv; repeat split; auto; fail);
    right; rewrite Hv; repeat split.
Qed.

(** One pass of [loop], seen through the status publishes: [w1] is the
    state after step 1; then either nothing was pending, or the pending
    status stayed unsent, or it was sent once. *)
Lemma pass_status e w w' :
  loop secrets e w = Some (tt, w') ->
  exists w1,
    loop_debounce e w = Some (tt, w1)
    /\ status_sent (trace w1) = status_sent (trace w)
    /\ status_tried (trace w1) = status_tried (trace w)
    /\ let p := statusString (lastStable (vars w1)) in
       (dirty (vars w1) = false /\ vars w' = vars w1
        /\ status_sent (trace w') = status_sent (trace w)
        /\ status_tried (trace w') = status_tried (trace w))
       \/ (dirty (vars w1) = true /\ vars w' = vars w1
           /\ status_sent (trace w') = status_sent (trace w)
           /\ (status_tried (trace w') = status_tried (trace w)
               \/ status_tried (trace w')
                  = status_tried (trace w) ++ [(p, true, false)]))
       \/ (dirty (vars w1) = true /\ dirty (vars w') = false
           /\ lastStable (vars w') = lastStable (vars w1)
           /\ status_sent (trace w') = status_sent (trace w) ++ [(p, true)]
           /\ status_tried (trace w')
              = status_tried (trace w) ++ [(p, true, true)]).
Proof.
  intros HL.
  destruct (loop_steps e w) as (w1 & w2 & w3 & H1 & H2 & H3 & HL').
  rewrite HL' in HL. injection HL as <-. clear HL'.
  exists w1. split; [exact H1|].
  assert (status_sent (trace w1) = status_sent (trace w)
          /\ status_tried (trace w1) = status_tried (trace w)) as [Hs1 Ht1].
  { rewrite loop_debounce_eq in H1. injection H1 as <-. cbn [trace].
    rewrite status_sent_app, status_tried_app.
    match goal with |- context [if ?c then _ else _] => destruct c end;
      cbn; rewrite !app_nil_r; auto. }
  split; [exact Hs1|]. split; [exact Ht1|].
  assert (vars w3 = vars w2
          /\ status_sent (trace w3) = status_sent (trace w2)
          /\ status_tried (trace w3) = status_tried (trace w2))
    as (Hv3 & Hs3 & Ht3).
  { rewrite loop_window_eq in H3. injection H3 as <-.
    destruct (session (dev w2) && sess_post e);
      match goal with |- context [if ?c then _ else _] => destruct c end;
      cbn [vars trace];
      try change (SerialPrintln "MQTT: reconnecting during window..."
                  :: handshake_events secrets (hs_re e))
        with ([SerialPrintln "MQTT: reconnecting during window..."]
              ++ handshake_events secrets (hs_re e));
      rewrite ?status_sent_app, ?status_tried_app,
        ?status_sent_handshake, ?status_tried_handshake;
      cbn; rewrite ?app_nil_r; auto. }
  cbn [vars trace]. rewrite Hv3, Hs3, Ht3.
  destruct (ensure_cases e w1) as (w2' & tr & H2' & Htr & _ & Hc).
  rewrite H2 in H2'. injection H2' as <-.
  rewrite Htr, status_sent_app, status_tried_app, Hs1, Ht1.
  destruct Hc as [(Hd & -> & ->)|(Hd & HS)].
  - left. cbn. rewrite !app_nil_r. auto.
  - right. destruct (step2_status _ _ _ _ Hd HS)
      as [(Hd2 & Hv & Hs & [Ht|Ht])|(Hd2 & Hv & Hs & Ht)];
      rewrite Hs, Ht, ?app_nil_r; [left|left|right]; auto 10.
Qed.

(** [setup], seen through the status publishes. *)
Lemma setup_status d0 e w :
  setup secrets e (power_on d0) = Some (tt, w) ->
  let p := statusString (logical_of_level (pin_level e)) in
  lastStable (vars w) = logical_of_level (pin_level e)
  /\ ((dirty (vars w) = true /\ windowDeadline (vars w) = 0
       /\ status_sent (trace w) = []
       /\ (status_tried (trace w) = []
           \/ status_tried (trace w) = [(p, true, false)]))
      \/ (dirty (vars w) = false
          /\ status_sent (trace w) = [(p, true)]
          /\ status_tried (trace w) = [(p, true, true)])).
Proof.
  rewrite setup_eq. intros H p.
  destruct (ensure_cases e (booted e)) as (w' & tr & H' & Htr & _ & Hc).
  rewrite H in H'. injection H' as <-.
  destruct Hc as [(Hd & _)|(Hd & HS)]; [discriminate Hd|].
  rewrite Htr, status_sent_app, status_tried_app.
  change (status_sent (trace (booted e))) with (@nil (string * bool)).
  change (status_tried (trace (booted e))) with (@nil (string * bool * bool)).
  cbn [app].
  destruct (step2_status _ _ _ _ Hd HS)
    as [(Hd2 & Hv & Hs & Ht)|(Hd2 & Hv & Hs & Ht)].
  - rewrite Hv. split; [reflexivity|]. left. rewrite Hv in Hd2. auto.
  - rewrite Hv. split; [reflexivity|]. right. auto.
Qed.

(** ** The published status follows the stable state *)

(** C10.  In every state reached from power-on (after [setup] and any
    number of passes of [loop]) in which [dirty] is false, a status
    publish has been accepted and the payload of the most recent accepted
    one is [statusString] of the current stable state, retained. *)
Theorem published_matches_stable :
  forall d0 e0 es w,
    boot secrets d0 e0 es = Some w ->
    dirty (vars w) = false ->
    latest (status_sent (trace w))
    = Some (statusString (lastStable (vars w)), true).
Proof.
  intros d0 e0 es w Hboot. pattern w. revert es w Hboot.
  apply boot_ind.
  - intros w H Hd.
    destruct (setup_status _ _ _ H) as (Hs & [(Hd' & _)|(_ & -> & _)]).
    + congruence.
    + rewrite Hs. reflexivity.
  - intros e w w' IH H Hd.
    destruct (pass_status _ _ _ H) as (w1 & H1 & _ & _ & Hc). cbv zeta in Hc.
    destruct Hc as [(Hd1 & Hv & Hs & _)|[(Hd1 & Hv & _)|(_ & _ & Hst & Hs & _)]].
    + rewrite Hs, Hv. rewrite loop_debounce_eq in H1. injection H1 as <-.
      cbn [vars dirty lastStable] in *.
      match goal with
      | H : (if ?c then true else _) = false |- _ => destruct c; [discriminate|]
      end.
      apply IH. assumption.
    + rewrite Hv in Hd. congruence.
    + rewrite Hs, Hst. apply latest_snoc.
Qed.

(** What step 1 leaves alone, and the two shapes of its log. *)
Lemma debounce_frame e w w1 :
  loop_debounce e w = Some (tt, w1) ->
  dev w1 = dev w /\ clock w1 = clock w
  /\ windowDeadline (vars w1) = windowDeadline (vars w)
  /\ lastRead (vars w1) = logical_of_level (pin_level e)
  /\ ((trace w1 = trace w /\ lastStable (vars w1) = lastStable (vars w)
       /\ dirty (vars w1) = dirty (vars w))
      \/ (trace w1 = trace w ++ [SerialPrint "door: ";
                                 SerialPrintln
                                   (statusString (lastStable (vars w1)))]
          /\ lastStable (vars w1) = negb (lastStable (vars w))
          /\ lastStable (vars w1) = lastRead (vars w1)
          /\ dirty (vars w1) = true)).
Proof.
  rewrite loop_debounce_eq. intros [= <-]. cbn.
  repeat (split; [reflexivity|]).
  match goal with |- context [if ?c then true else _] => destruct c eqn:Hc end.
  - right. apply andb_prop in Hc. destruct Hc as [_ Hc].
    repeat split.
    destruct (lastStable (vars w)), (logical_of_level (pin_level e));
      try reflexivity; discriminate.
  - left. rewrite app_nil_r. auto.
Qed.

Lemma debounce_counts e w w1 :
  loop_debounce e w = Some (tt, w1) ->
  reconnects (trace w1) = reconnects (trace w)
  /\ teardowns (trace w1) = teardowns (trace w)
  /\ connects (trace w1) = connects (trace w).
Proof.
  intros H. destruct (debounce_frame _ _ _ H)
    as (_ & _ & _ & _ & [(-> & _)|(-> & _)]); [auto|].
  rewrite reconnects_app, teardowns_app, connects_app.
  destruct (lastStable (vars w1)); cbn; rewrite app_nil_r; auto.
Qed.

(** ** Reconnects during the window *)

Lemma step2_quiet e w w' tr :
  Step2 secrets e w w' tr -> reconnects tr = 0%nat /\ door_reports tr = 0%nat.
Proof.
  intros H. rewrite <- reconnects_keys, <- door_reports_keys.
  destruct H as [_ _ _ _ ->|_ _ _ _ ->|hsk _ _ _ [->| ->] ->
                |hsk now _ _ _ _ [->| ->] ->];
    split; reflexivity.
Qed.

Lemma reconnects_handshake hs : reconnects (handshake_events secrets hs) = 0%nat.
Proof. unfold handshake_events. destruct (ok (hs_connect hs)); reflexivity. Qed.

(** The test under which step 3 reconnects from the state [w]. *)
Lemma loop_window_reconnects e w w' :
  loop_window secrets e w = Some (tt, w') ->
  vars w' = vars w
  /\ reconnects (trace w')
     = (reconnects (trace w)
        + if negb (session (dev w) && sess_post e)
             && (radio (dev w) && link_post e)
             && window_open (vars w) (wrap (clock w))
          then 1 else 0)%nat.
Proof.
  rewrite loop_window_eq. intros [= <-].
  destruct (session (dev w) && sess_post e); cbn [negb andb];
    match goal with |- context [if ?c then _ else _] => destruct c end;
    cbn [vars trace];
    try change (SerialPrintln "MQTT: reconnecting during window..."
                :: handshake_events secrets (hs_re e))
      with ([SerialPrintln "MQTT: reconnecting during window..."]
            ++ handshake_events secrets (hs_re e));
    rewrite ?reconnects_app, ?reconnects_handshake; cbn;
    (split; [reflexivity | lia]).
Qed.

(** One pass of [loop], seen through the reconnects: [w2] is the state
    in which step 3 starts. *)
Lemma pass_reconnects e w w' :
  loop secrets e w = Some (tt, w') ->
  exists w1 w2,
    loop_debounce e w = Some (tt, w1)
    /\ ensureMqttAndPublishIfDirty secrets e w1 = Some (tt, w2)
    /\ vars w' = vars w2
    /\ reconnects (trace w')
       = (reconnects (trace w)
          + if negb (session (dev w2) && sess_post e)
               && (radio (dev w2) && link_post e)
               && window_open (vars w2) (wrap (clock w2))
            then 1 else 0)%nat.
Proof.
  intros HL.
  destruct (loop_steps e w) as (w1 & w2 & w3 & H1 & H2 & H3 & HL').
  rewrite HL' in HL. injection HL as <-. clear HL'.
  exists w1, w2. repeat (split; [assumption|]). cbn [vars trace].
  destruct (loop_window_reconnects _ _ _ H3) as [-> ->].
  split; [reflexivity|]. f_equal.
  destruct (ensure_cases e w1) as (w2' & tr & H2' & Htr & _ & Hc).
  rewrite H2 in H2'. injection H2' as <-. rewrite Htr, reconnects_app.
  assert (reconnects tr = 0%nat) as ->.
  { destruct Hc as [(_ & _ & ->)|(_ & HS)];
      [reflexivity | eapply step2_quiet, HS]. }
  destruct (debounce_counts _ _ _ H1) as (-> & _). lia.
Qed.

Lemma setup_reconnects d0 e w :
  setup secrets e (power_on d0) = Some (tt, w) -> reconnects (trace w) = 0%nat.
Proof.
  rewrite setup_eq. intros H.
  destruct (ensure_cases e (booted e)) as (w' & tr & H' & Htr & _ & Hc).
  rewrite H in H'. injection H' as <-. rewrite Htr, reconnects_app.
  destruct Hc as [(Hd & _)|(_ & HS)]; [discriminate Hd|].
  destruct (step2_quiet _ _ _ _ HS) as [-> _]. reflexivity.
Qed.

(** C9.  As long as no status publish has been accepted since power-on,
    [windowDeadline] still holds its initial 0 and step 3 of [loop] has
    never announced or attempted a reconnect, whatever the link state and
    the dirty flag; and from any state with [windowDeadline = 0] step 3
    makes no [mqtt.connect] call at all. *)
Theorem no_reconnect_before_first_publish :
  (forall d0 e0 es w,
      boot secrets d0 e0 es = Some w ->
      status_sent (trace w) = [] ->
      windowDeadline (vars w) = 0 /\ reconnects (trace w) = 0%nat)
  /\ (forall e w,
        windowDeadline (vars w) = 0 ->
        exists w' tr,
          loop_window secrets e w = Some (tt, w')
          /\ trace w' = trace w ++ tr
          /\ connects tr = [] /\ reconnects tr = 0%nat).
Proof.
  split.
  - intros d0 e0 es w Hboot. pattern w. revert es w Hboot.
    apply boot_ind.
    + intros w H Hs. split; [|eapply setup_reconnects, H].
      destruct (setup_status _ _ _ H) as (_ & [(_ & Hw & _)|(_ & Hs' & _)]);
        [assumption|congruence].
    + intros e w w' IH H Hs.
      destruct (pass_status _ _ _ H) as (w1 & H1 & _ & _ & Hc). cbv zeta in Hc.
      destruct (pass_reconnects _ _ _ H) as (w1' & w2 & H1' & _ & Hv2 & Hr).
      rewrite H1 in H1'. injection H1' as <-.
      assert (windowDeadline (vars w1) = windowDeadline (vars w)) as Hw1.
      { rewrite loop_debounce_eq in H1. injection H1 as <-. reflexivity. }
      destruct Hc as [(_ & Hv & Hs' & _)|[(_ & Hv & Hs' & _)|(_ & _ & _ & Hs' & _)]];
        try (rewrite Hs' in Hs; destruct (status_sent (trace w)); discriminate);
        rewrite Hs' in Hs; destruct (IH Hs) as [Hw0 Hr0];
        (assert (windowDeadline (vars w') = 0) as Hw' by congruence);
        (split; [exact Hw'|]);
        rewrite Hr, Hr0; unfold window_open; rewrite <- Hv2, Hw';
        cbn; rewrite !andb_false_r; reflexivity.
  - intros e w Hw. rewrite loop_window_eq.
    unfold window_open, expired_idle. rewrite Hw. cbn [Z.eqb negb andb].
    rewrite !andb_false_r.
    destruct (session (dev w) && sess_post e); [destruct (_ && _)|];
      eexists _, _; (split; [reflexivity|]); cbn [trace];
      (split; [first [reflexivity | symmetry; apply app_nil_r]|]);
      split; reflexivity.
Qed.

(** ** Availability: birth message and last will *)

Lemma paired_app a b : paired a -> paired b -> paired (a ++ b).
Proof.
  intros Ha Hb. induction a as [|ev a IH]; [exact Hb|].
  destruct ev; cbn [paired app] in *; auto.
  destruct Ha as (? & ? & ? & Hbirth & Ha). repeat (split; [assumption|]).
  split; [|auto].
  intros Hok. destruct (Hbirth Hok) as (sent & rest' & ->).
  cbn [app]. eauto.
Qed.

Lemma paired_step2 e w w' tr : Step2 secrets e w w' tr -> paired (keys tr).
Proof.
  intros [_ _ _ _ ->|_ _ _ _ ->|hsk _ _ _ [->| ->] ->
         |hsk now _ _ _ _ [->| ->] ->];
    cbn; repeat split; eauto; discriminate.
Qed.

Lemma paired_keys_handshake hs : paired (keys (handshake_events secrets hs)).
Proof.
  unfold handshake_events. destruct (ok (hs_connect hs)); cbn;
    repeat split; eauto; discriminate.
Qed.

Lemma paired_setup d0 e w :
  setup secrets e (power_on d0) = Some (tt, w) -> paired (keys (trace w)).
Proof.
  rewrite setup_eq. intros H.
  destruct (ensure_cases e (booted e)) as (w' & tr & H' & Htr & _ & Hc).
  rewrite H in H'. injection H' as <-. rewrite Htr, keys_app.
  destruct Hc as [(Hd & _)|(_ & HS)]; [discriminate Hd|].
  apply paired_app; [cbn; exact I | eapply paired_step2, HS].
Qed.

Lemma paired_pass e w w' :
  loop secrets e w = Some (tt, w') ->
  paired (keys (trace w)) -> paired (keys (trace w')).
Proof.
  intros HL HP.
  destruct (loop_steps e w) as (w1 & w2 & w3 & H1 & H2 & H3 & HL').
  rewrite HL' in HL. injection HL as <-. clear HL'. cbn [trace].
  assert (paired (keys (trace w1))) as HP1.
  { destruct (debounce_frame _ _ _ H1)
      as (_ & _ & _ & _ & [(-> & _)|(-> & _)]); [assumption|].
    rewrite keys_app. apply paired_app; [assumption|].
    destruct (lastStable (vars w1)); exact I. }
  assert (paired (keys (trace w2))) as HP2.
  { destruct (ensure_cases e w1) as (w2' & tr & H2' & Htr & _ & Hc).
    rewrite H2 in H2'. injection H2' as <-. rewrite Htr, keys_app.
    apply paired_app; [assumption|].
    destruct Hc as [(_ & _ & ->)|(_ & HS)];
      [exact I | eapply paired_step2, HS]. }
  rewrite loop_window_eq in H3. injection H3 as <-.
  destruct (session (dev w2) && sess_post e);
    match goal with |- context [if ?c then _ else _] => destruct c end;
    cbn [trace];
    try change (SerialPrintln "MQTT: reconnecting during window..."
                :: handshake_events secrets (hs_re e))
      with ([SerialPrintln "MQTT: reconnecting during window..."]
            ++ handshake_events secrets (hs_re e));
    rewrite ?keys_app; repeat apply paired_app;
    solve [assumption | exact I | apply paired_keys_handshake].
Qed.

(** C6 (availability birth/will pairing).  Every [mqttConnect] returns the
    result of its [mqtt.connect], which registers the will "false",
    retained, on the availability topic; when the connect is accepted the
    session is live and the next call is the publish of "true", retained,
    on that topic; the two payloads differ.  Hence the log of every
    execution from power-on is [paired]. *)
Theorem availability_pairing :
  (forall hs e w,
      exists w',
        mqttConnect secrets hs e w = Some (ok (hs_connect hs), w')
        /\ session (dev w') = ok (hs_connect hs)
        /\ trace w'
           = trace w
             ++ [MqttSetServer (MQTT_HOST secrets) (MQTT_PORT secrets);
                 MqttConnect (makeClientId secrets) (broker_cred secrets)
                   TOPIC_ONLINE 0 true "false" (ok (hs_connect hs))]
             ++ (if ok (hs_connect hs)
                 then [MqttPublish TOPIC_ONLINE "true" true (ok (hs_birth hs))]
                 else []))
  /\ "true" <> "false"
  /\ (forall d0 e0 es w,
        boot secrets d0 e0 es = Some w -> paired (keys (trace w))).
Proof.
  split; [|split].
  - intros hs e w. eexists. split; [apply mqttConnect_eq|].
    split; reflexivity.
  - discriminate.
  - intros d0 e0 es w Hboot. pattern w. revert es w Hboot.
    apply boot_ind.
    + apply paired_setup.
    + intros e w w' HP HL. eapply paired_pass; eassumption.
Qed.

(** ** One publish per dirty period *)

(** C3 (at most one pending status).  Over a contiguous dirty period,
    however often the stable state changed and however many passes
    failed to send, exactly one status publish is accepted: the one that
    ends the period, and its payload is [statusString] of the stable
    state at that moment, retained.  A boot that ends with nothing pending
    has published exactly once, and a pass with nothing pending at step 2
    does not call [mqtt.publish] on the status topic. *)
Theorem one_publish_per_dirty_period :
  (forall w es w',
      dirty_period secrets w es w' ->
      status_sent (trace w')
      = status_sent (trace w) ++ [(statusString (lastStable (vars w')), true)])
  /\ (forall d0 e0 w,
        setup secrets e0 (power_on d0) = Some (tt, w) ->
        dirty (vars w) = false ->
        status_sent (trace w) = [(statusString (lastStable (vars w)), true)])
  /\ (forall e w w1 w',
        loop_debounce e w = Some (tt, w1) -> dirty (vars w1) = false ->
        loop secrets e w = Some (tt, w') ->
        status_tried (trace w') = status_tried (trace w)).
Proof.
  split; [|split].
  - induction 1
      as [e w w1 w' H1 Hd1 HL Hd'|e es w w1 w' w'' H1 Hd1 HL Hd' _ IH].
    + destruct (pass_status _ _ _ HL) as (w1' & H1' & _ & _ & Hc).
      rewrite H1 in H1'. injection H1' as <-. cbv zeta in Hc.
      destruct Hc as [(Hd & _)|[(_ & Hv & _)|(_ & _ & Hst & Hs & _)]].
      * congruence.
      * rewrite Hv in Hd'. congruence.
      * rewrite Hs, Hst. reflexivity.
    + destruct (pass_status _ _ _ HL) as (w1' & H1' & _ & _ & Hc).
      rewrite H1 in H1'. injection H1' as <-. cbv zeta in Hc.
      destruct Hc as [(Hd & _)|[(_ & _ & Hs & _)|(_ & Hd & _)]].
      * congruence.
      * rewrite IH, Hs. reflexivity.
      * congruence.
  - intros d0 e0 w H Hd.
    destruct (setup_status _ _ _ H) as (Hs & [(Hd' & _)|(_ & -> & _)]).
    + congruence.
    + rewrite Hs. reflexivity.
  - intros e w w1 w' H1 Hd1 HL.
    destruct (pass_status _ _ _ HL) as (w1' & H1' & _ & _ & Hc).
    rewrite H1 in H1'. injection H1' as <-. cbv zeta in Hc.
    destruct Hc as [(_ & _ & _ & Ht)|[(Hd & _)|(Hd & _)]];
      [exact Ht | congruence | congruence].
Qed.

(** ** Failures are retried *)

Lemma failures_app a b : failures (a ++ b) = (failures a + failures b)%nat.
Proof. apply count_app. Qed.

Lemma failures_keys tr : failures (keys tr) = failures tr.
Proof.
  apply count_keys. intros [] Hk; try reflexivity. cbn in Hk |- *.
  destruct (_ =? "MQTT: reconnecting during window...")%string;
    [discriminate|exact Hk].
Qed.

Lemma failures_handshake hs : failures (handshake_events secrets hs) = 0%nat.
Proof. unfold handshake_events. destruct (ok (hs_connect hs)); reflexivity. Qed.

Lemma step2_failures e w w' tr :
  dirty (vars w) = true ->
  Step2 secrets e w w' tr ->
  (dirty (vars w') = true /\ failures tr = 1%nat /\ ~ cooperative e)
  \/ (dirty (vars w') = false /\ failures tr = 0%nat).
Proof.
  intros Hd H. rewrite <- failures_keys.
  destruct H as [Hj Hv _ _ ->|Hc Hv _ _ ->|hsk Hp Hv _ [->| ->] ->
                |hsk now _ Hv _ _ [->| ->] ->];
    try (right; rewrite Hv; split; reflexivity);
    left; rewrite Hv; (split; [exact Hd|]); (split; [reflexivity|]);
    intros ((d & Hd' & Hle) & Hc' & Hp'); try congruence.
  specialize (Hj d Hd'). lia.
Qed.

(** One pass, seen through the failure diagnostics: there is one exactly
    when a status was pending at step 2 and is still pending after the
    pass, and none in a cooperative environment. *)
Lemma pass_failures e w w' :
  loop secrets e w = Some (tt, w') ->
  exists w1,
    loop_debounce e w = Some (tt, w1)
    /\ failures (trace w')
       = (failures (trace w)
          + if dirty (vars w1) && dirty (vars w') then 1 else 0)%nat
    /\ (cooperative e -> dirty (vars w') = false).
Proof.
  intros HL.
  destruct (loop_steps e w) as (w1 & w2 & w3 & H1 & H2 & H3 & HL').
  rewrite HL' in HL. injection HL as <-. clear HL'.
  exists w1. split; [exact H1|]. cbn [vars trace].
  assert (failures (trace w1) = failures (trace w)) as Hf1.
  { destruct (debounce_frame _ _ _ H1)
      as (_ & _ & _ & _ & [(-> & _)|(-> & _)]); [reflexivity|].
    rewrite failures_app.
    replace (failures [_; _]) with 0%nat
      by (destruct (lastStable (vars w1)); reflexivity).
    lia. }
  assert (vars w3 = vars w2 /\ failures (trace w3) = failures (trace w2))
    as (Hv3 & Hf3).
  { rewrite loop_window_eq in H3. injection H3 as <-.
    destruct (session (dev w2) && sess_post e);
      match goal with |- context [if ?c then _ else _] => destruct c end;
      cbn [vars trace];
      try change (SerialPrintln "MQTT: reconnecting during window..."
                  :: handshake_events secrets (hs_re e))
        with ([SerialPrintln "MQTT: reconnecting during window..."]
              ++ handshake_events secrets (hs_re e));
      rewrite ?failures_app, ?failures_handshake; cbn; split;
      solve [reflexivity | lia]. }
  rewrite Hv3, Hf3.
  destruct (ensure_cases e w1) as (w2' & tr & H2' & Htr & _ & Hc).
  rewrite H2 in H2'. injection H2' as <-. rewrite Htr, failures_app, Hf1.
  destruct Hc as [(Hd & -> & ->)|(Hd & HS)].
  - rewrite Hd. cbn. split; [lia|auto].
  - rewrite Hd.
    destruct (step2_failures _ _ _ _ Hd HS) as [(-> & -> & Hn)|(-> & ->)];
      cbn; split; try lia; auto. intros Hco. contradiction.
Qed.

(** A pass in which the link, the broker connect or the publish failed
    (one of the three diagnostics was printed), seen through the status
    topic: it returns with [dirty] still set; no status publish was
    accepted in it and at most one was attempted, the refused one.  The
    next pass returns as well, whatever the environment, and takes the
    pending status up again: it ends either with a failure diagnostic and
    [dirty] set, or with the one accepted publish of the stable state and
    [dirty] cleared, the latter whenever the environment cooperates.
    There is no fault state: any further passes return too. *)
Lemma failed_pass_status :
  forall e w w',
    loop secrets e w = Some (tt, w') ->
    failures (trace w') <> failures (trace w) ->
    dirty (vars w') = true
    /\ failures (trace w') = S (failures (trace w))
    /\ status_sent (trace w') = status_sent (trace w)
    /\ (status_tried (trace w') = status_tried (trace w)
        \/ exists p,
             status_tried (trace w') = status_tried (trace w) ++ [(p, true, false)])
    /\ (forall e',
        exists w'',
          loop secrets e' w' = Some (tt, w'')
          /\ (dirty (vars w'') = true
               /\ failures (trace w'') = S (failures (trace w'))
               /\ status_sent (trace w'') = status_sent (trace w')
              \/ dirty (vars w'') = false
                 /\ failures (trace w'') = failures (trace w')
                 /\ status_sent (trace w'')
                    = status_sent (trace w')
                      ++ [(statusString (lastStable (vars w'')), true)])
          /\ (cooperative e' -> dirty (vars w'') = false))
    /\ (forall es, exists wn, run secrets es w' = Some wn).
Proof.
  intros e w w' HL Hf.
  destruct (pass_failures _ _ _ HL) as (w1 & H1 & Hfw & _).
  destruct (dirty (vars w1)) eqn:Hd1; [|cbn in Hfw; lia].
  destruct (dirty (vars w')) eqn:Hd'; [|cbn in Hfw; lia].
  cbn in Hfw. split; [reflexivity|]. split; [lia|].
  destruct (pass_status _ _ _ HL) as (w1' & H1' & _ & _ & Hc).
  rewrite H1 in H1'. injection H1' as <-. cbv zeta in Hc.
  destruct Hc as [(Hd & _)|[(_ & _ & Hs & Ht)|(_ & Hd & _)]]; try congruence.
  split; [exact Hs|]. split; [destruct Ht; eauto|].
  split; [|intros es; apply run_total].
  intros e'. destruct (loop_total e' w') as [w'' HL'']. exists w''.
  split; [exact HL''|].
  destruct (pass_failures _ _ _ HL'') as (v1 & G1 & Gf & Gco).
  split; [|exact Gco].
  assert (dirty (vars v1) = true) as Gd1.
  { destruct (debounce_frame _ _ _ G1)
      as (_ & _ & _ & _ & [(_ & _ & ->)|(_ & _ & _ & ->)]); auto. }
  rewrite Gd1 in Gf.
  destruct (pass_status _ _ _ HL'') as (v1' & G1' & _ & _ & Gc).
  rewrite G1 in G1'. injection G1' as <-. cbv zeta in Gc.
  destruct Gc as [(Gd & _)|[(_ & Gv & Gs & _)|(_ & Gd & Gst & Gs & _)]];
    try congruence.
  - left. rewrite Gv, Gd1 in *. cbn in Gf. repeat split; [lia|exact Gs].
  - right. rewrite Gd in *. cbn in Gf. rewrite Gst.
    repeat split; [lia|exact Gs].
Qed.

(** ** Boot publish *)

Lemma door_reports_handshake hs :
  door_reports (handshake_events secrets hs) = 0%nat.
Proof. unfold handshake_events. destruct (ok (hs_connect hs)); reflexivity. Qed.

(** One pass, seen through the door reports: there is one exactly when
    the stable state changed, which marks the status unsent. *)
Lemma pass_doors e w w' :
  loop secrets e w = Some (tt, w') ->
  exists w1,
    loop_debounce e w = Some (tt, w1)
    /\ lastStable (vars w') = lastStable (vars w1)
    /\ ((door_reports (trace w') = door_reports (trace w)
         /\ lastStable (vars w1) = lastStable (vars w)
         /\ dirty (vars w1) = dirty (vars w))
        \/ (door_reports (trace w') = S (door_reports (trace w))
            /\ lastStable (vars w1) = negb (lastStable (vars w))
            /\ dirty (vars w1) = true)).
Proof.
  intros HL.
  destruct (pass_status _ _ _ HL) as (w1 & H1 & _ & _ & Hc). cbv zeta in Hc.
  exists w1. split; [exact H1|].
  split.
  { destruct Hc as [(_ & -> & _)|[(_ & -> & _)|(_ & _ & -> & _)]]; reflexivity. }
  destruct (loop_steps e w) as (w1' & w2 & w3 & H1' & H2 & H3 & HL').
  rewrite H1 in H1'. injection H1' as <-.
  rewrite HL' in HL. injection HL as <-. clear HL'. cbn [trace].
  assert (door_reports (trace w3) = door_reports (trace w1)) as ->.
  { transitivity (door_reports (trace w2)).
    - rewrite loop_window_eq in H3. injection H3 as <-.
      destruct (session (dev w2) && sess_post e);
        match goal with |- context [if ?c then _ else _] => destruct c end;
        cbn [vars trace];
        try change (SerialPrintln "MQTT: reconnecting during window..."
                    :: handshake_events secrets (hs_re e))
          with ([SerialPrintln "MQTT: reconnecting during window..."]
                ++ handshake_events secrets (hs_re e));
        rewrite ?door_reports_app, ?door_reports_handshake; cbn;
        solve [reflexivity | lia].
    - destruct (ensure_cases e w1) as (w2' & tr & H2' & Htr & _ & Hc').
      rewrite H2 in H2'. injection H2' as <-. rewrite Htr, door_reports_app.
      destruct Hc' as [(_ & _ & ->)|(_ & HS)]; [cbn; lia|].
      destruct (step2_quiet _ _ _ _ HS) as [_ ->]. lia. }
  destruct (debounce_frame _ _ _ H1)
    as (_ & _ & _ & _ & [(-> & Hs & Hd)|(-> & Hs & _ & Hd)]); [left; auto|].
  right. rewrite door_reports_app.
  replace (door_reports [_; _]) with 1%nat
    by (destruct (lastStable (vars w1)); reflexivity).
  repeat split; [lia | exact Hs | exact Hd].
Qed.

Lemma setup_doors d0 e w :
  setup secrets e (power_on d0) = Some (tt, w) -> door_reports (trace w) = 0%nat.
Proof.
  rewrite setup_eq. intros H.
  destruct (ensure_cases e (booted e)) as (w' & tr & H' & Htr & _ & Hc).
  rewrite H in H'. injection H' as <-. rewrite Htr, door_reports_app.
  destruct Hc as [(Hd & _)|(_ & HS)]; [discriminate Hd|].
  destruct (step2_quiet _ _ _ _ HS) as [_ ->]. reflexivity.
Qed.

Lemma setup_cooperative d0 e w :
  setup secrets e (power_on d0) = Some (tt, w) ->
  cooperative e -> dirty (vars w) = false.
Proof.
  rewrite setup_eq. intros H Hco.
  destruct (ensure_cases e (booted e)) as (w' & tr & H' & Htr & _ & Hc).
  rewrite H in H'. injection H' as <-.
  destruct Hc as [(Hd & _)|(Hd & HS)]; [discriminate Hd|].
  destruct (step2_failures _ _ _ _ Hd HS) as [(_ & _ & Hn)|(Hd' & _)];
    [contradiction|exact Hd'].
Qed.

(** The invariant behind the boot publish: accepted publishes are paid
    for by the boot
    or by a door report, and while no door report was printed the
    stable state is the one read at boot and every attempt carried it. *)
Lemma boot_publish_invariant d0 e0 :
  forall es w,
    boot secrets d0 e0 es = Some w ->
    (List.length (status_sent (trace w)) + (if dirty (vars w) then 1 else 0)
     <= 1 + door_reports (trace w))%nat
    /\ (door_reports (trace w) = 0%nat ->
        lastStable (vars w) = logical_of_level (pin_level e0)
        /\ all_status (statusString (logical_of_level (pin_level e0)))
                      (trace w)).
Proof.
  apply boot_ind.
  - intros w H. rewrite (setup_doors _ _ _ H).
    destruct (setup_status _ _ _ H)
      as (Hs & [(-> & _ & -> & Ht)|(-> & -> & Ht)]); cbv zeta in Ht;
      (split; [cbn; lia|]); intros _; (split; [exact Hs|]);
      unfold all_status.
    + destruct Ht as [-> | ->]; repeat constructor.
    + rewrite Ht. repeat constructor.
  - intros e w w' (IHn & IHd) HL.
    destruct (pass_doors _ _ _ HL) as (w1 & H1 & Hst & Hdoor).
    destruct (pass_status _ _ _ HL) as (w1' & H1' & _ & _ & Hc).
    rewrite H1 in H1'. injection H1' as <-. cbv zeta in Hc.
    split.
    + destruct Hdoor as [(-> & _ & Hd1)|(-> & _ & Hd1)];
        destruct Hc as [(Hd & Hv & -> & _)|[(Hd & Hv & -> & _)|(Hd & -> & _ & -> & _)]];
        rewrite ?Hv, ?length_app; cbn [List.length];
        try rewrite Hd in *; try rewrite <- Hd1 in *;
        destruct (dirty (vars w)); try discriminate; lia.
    + intros Hz.
      destruct Hdoor as [(Hdr & Hs1 & _)|(Hdr & _)]; [|lia].
      rewrite Hdr in Hz. destruct (IHd Hz) as (Hs & Hall).
      split; [congruence|]. unfold all_status in *.
      destruct Hc as [(_ & _ & _ & ->)|[(_ & _ & _ & [-> | ->])|(_ & _ & _ & _ & ->)]];
        try exact Hall;
        (apply Forall_app; split; [exact Hall|]);
        rewrite Hs1, Hs; repeat constructor.
Qed.

(** C7 (boot publish).  With boot publish enabled ([PUBLISH_ON_BOOT] is
    [true]) and the switch reading "closed" ([LOW]) at boot: in a
    cooperative environment [setup] itself publishes "closed", retained,
    on the status topic, before [loop] ever runs; and as long as no
    debounced change was reported, every status publish, attempted or
    accepted, carries "closed", retained.  A status is published only
    once for the boot and once per debounced change: the accepted
    publishes, plus one when a status is pending, never exceed one plus
    the number of door reports. *)
Theorem boot_publish :
  PUBLISH_ON_BOOT = true
  /\ (forall d0 e0,
        pin_level e0 = LOW -> cooperative e0 ->
        exists w,
          setup secrets e0 (power_on d0) = Some (tt, w)
          /\ status_sent (trace w) = [("closed", true)]
          /\ status_tried (trace w) = [("closed", true, true)]
          /\ door_reports (trace w) = 0%nat)
  /\ (forall d0 e0 es w,
        boot secrets d0 e0 es = Some w ->
        pin_level e0 = LOW ->
        door_reports (trace w) = 0%nat ->
        all_status "closed" (trace w)
        /\ (List.length (status_sent (trace w)) <= 1)%nat)
  /\ (forall d0 e0 es w,
        boot secrets d0 e0 es = Some w ->
        (List.length (status_sent (trace w)) + (if dirty (vars w) then 1 else 0)
         <= 1 + door_reports (trace w))%nat).
Proof.
  split; [reflexivity|]. split; [|split].
  - intros d0 e0 Hpin Hco. destruct (setup_total d0 e0) as [w H].
    exists w. split; [exact H|].
    pose proof (setup_cooperative _ _ _ H Hco) as Hd.
    destruct (setup_status _ _ _ H) as (_ & [(Hd' & _)|(_ & Hs & Ht)]);
      [congruence|]. cbv zeta in Hs, Ht. rewrite Hpin in Hs, Ht.
    repeat split; [exact Hs | exact Ht | eapply setup_doors, H].
  - intros d0 e0 es w Hboot Hpin Hz.
    destruct (boot_publish_invariant _ _ _ _ Hboot) as (Hn & Hd).
    destruct (Hd Hz) as (_ & Hall). rewrite Hpin in Hall.
    split; [exact Hall|]. rewrite Hz in Hn. lia.
  - intros d0 e0 es w Hboot.
    apply (boot_publish_invariant _ _ _ _ Hboot).
Qed.

(** ** Debounce *)

(** One pass, seen from the input tracker, in closed form. *)
Lemma pass_tracker e w w' :
  loop secrets e w = Some (tt, w') ->
  let raw := logical_of_level (pin_level e) in
  let at' := if Bool.eqb raw (lastRead (vars w))
             then lastBounceAt (vars w) else wrap (clock w) in
  let commit := (DEBOUNCE_MS <=? wrap (wrap (clock w) - at'))
                && negb (Bool.eqb (lastStable (vars w)) raw) in
  lastRead (vars w') = raw
  /\ lastBounceAt (vars w') = at'
  /\ lastStable (vars w') = (if commit then raw else lastStable (vars w))
  /\ door_reports (trace w')
     = (door_reports (trace w) + if commit then 1 else 0)%nat
  /\ clock w <= clock w'.
Proof.
  intros HL raw at' commit.
  destruct (loop_steps e w) as (w1 & w2 & w3 & H1 & H2 & H3 & HL').
  pose proof HL as HL0. rewrite HL' in HL. injection HL as <-. clear HL'.
  cbn [vars clock trace].
  destruct (ensure_cases e w1) as (w2' & tr & H2' & Htr & Hc2 & Hc).
  rewrite H2 in H2'. injection H2' as <-.
  assert (lastRead (vars w3) = lastRead (vars w1)
          /\ lastBounceAt (vars w3) = lastBounceAt (vars w1)
          /\ lastStable (vars w3) = lastStable (vars w1)
          /\ clock w1 <= clock w3) as (Hr & Hb & Hs & Hck).
  { assert (vars w3 = vars w2 /\ clock w2 <= clock w3) as [-> Hc3].
    { rewrite loop_window_eq in H3. injection H3 as <-.
      destruct (session (dev w2) && sess_post e);
        match goal with |- context [if ?c then _ else _] => destruct c end;
        cbn [vars clock]; split; try reflexivity;
        try destruct (ok (hs_connect (hs_re e))); lia. }
    destruct Hc as [(_ & -> & _)|(_ & HS)]; [repeat split; lia|].
    destruct HS as [_ -> _ _ _|_ -> _ _ _|hsk _ -> _ _ _|hsk now _ -> _ _ _ _];
      repeat split; lia. }
  rewrite Hr, Hb, Hs.
  destruct (pass_doors _ _ _ HL0) as (w1' & H1' & _ & Hdoor).
  rewrite H1 in H1'. injection H1' as <-. cbn [trace] in Hdoor.
  rewrite loop_debounce_eq in H1. injection H1 as <-.
  cbn [vars clock lastRead lastBounceAt lastStable dirty] in *.
  fold raw in Hdoor |- *. fold at' in Hdoor |- *. fold commit in Hdoor |- *.
  repeat (split; [reflexivity|]). split; [|lia].
  destruct commit eqn:Hcm.
  - destruct Hdoor as [(_ & Hx & _)|(-> & _)]; [|lia].
    apply andb_prop in Hcm. destruct Hcm as [_ Hcm].
    destruct (lastStable (vars w)), raw; discriminate.
  - destruct Hdoor as [(-> & _)|(_ & Hx & _)]; [lia|].
    destruct (lastStable (vars w)); discriminate.
Qed.

Lemma wrap_sub_self c : wrap (wrap c - wrap c) = 0.
Proof. rewrite Z.sub_diag. reflexivity. Qed.

Lemma eqb_negb_l b : Bool.eqb (negb b) b = false.
Proof. destruct b; reflexivity. Qed.

Lemma eqb_negb_r b : Bool.eqb b (negb b) = false.
Proof. destruct b; reflexivity. Qed.

Lemma eqb_false_negb a b : Bool.eqb a b = false -> a = negb b.
Proof. destruct a, b; intros H; try reflexivity; discriminate. Qed.

(** Bounces shorter than the debounce interval never reach the stable
    state.  [since] is the start of the bounce in progress in [w]. *)
Lemma bounces_short_run es :
  forall w w' since,
    match since with
    | None => lastRead (vars w) = lastStable (vars w)
    | Some t0 => lastRead (vars w) = negb (lastStable (vars w))
                 /\ lastBounceAt (vars w) = wrap t0 /\ t0 <= clock w
    end ->
    bounces_short (lastStable (vars w)) since (samples secrets es w) ->
    run secrets es w = Some w' ->
    lastStable (vars w') = lastStable (vars w)
    /\ door_reports (trace w') = door_reports (trace w).
Proof.
  induction es as [|e es IH]; intros w w' since Hst Hb Hrun.
  - cbn in Hrun. injection Hrun as <-. auto.
  - cbn [run] in Hrun. cbn [samples bounces_short] in Hb.
    destruct (loop secrets e w) as [[[] w1]|] eqn:HL; [|discriminate].
    destruct (pass_tracker _ _ _ HL) as (Hr & Hat & Hs & Hd & Hck).
    cbv zeta in Hr, Hat, Hs, Hd.
    destruct (Bool.eqb (logical_of_level (pin_level e)) (lastStable (vars w)))
      eqn:Heq.
    + apply eqb_prop in Heq. rewrite Heq in *.
      rewrite eqb_reflx, andb_false_r in Hs, Hd.
      rewrite Nat.add_0_r in Hd. rewrite <- Hs in Hb.
      destruct (IH w1 w' None) as [A B]; [congruence | exact Hb | exact Hrun|].
      split; congruence.
    + apply eqb_false_negb in Heq. rewrite Heq in *.
      destruct Hb as [Hlt Hb].
      assert (lastStable (vars w1) = lastStable (vars w)
              /\ door_reports (trace w1) = door_reports (trace w)
              /\ lastBounceAt (vars w1)
                 = wrap match since with Some t0 => t0 | None => clock w end)
        as (Hs' & Hd' & Hat').
      { destruct since as [t0|].
        - destruct Hst as (Hrd & Hba & Ht0).
          rewrite Hrd, eqb_reflx, Hba, wrap_sub_wrap, wrap_small in *
            by (unfold DEBOUNCE_MS in Hlt; lia).
          replace (DEBOUNCE_MS <=? clock w - t0) with false in *
            by (symmetry; apply Z.leb_gt; exact Hlt).
          cbn [andb] in *. rewrite Hs, Hd, Hat. repeat split; lia.
        - rewrite Hst, eqb_negb_l, wrap_sub_self in *.
          cbn [andb Z.leb DEBOUNCE_MS Z.compare] in *.
          rewrite Hs, Hd, Hat. repeat split; lia. }
      rewrite <- Hs' in Hb.
      destruct (IH w1 w' (Some match since with
                               | Some t0 => t0
                               | None => clock w
                               end)) as [A B];
        [|exact Hb|exact Hrun|split; congruence].
      rewrite Hr, Hs'. repeat split; [exact Hat'|].
      destruct since as [t0|]; [destruct Hst as (_ & _ & ?)|]; lia.
Qed.

(** A sustained level is committed once, as soon as a sample is taken
    [DEBOUNCE_MS] after the first. *)
Lemma sustained_run s t1 es :
  forall w w' c,
    tracking s t1 c w ->
    Forall (fun x => snd x = negb s /\ fst x - t1 < 2 ^ 32)
           (samples secrets es w) ->
    run secrets es w = Some w' ->
    exists c',
      tracking s t1 c' w'
      /\ door_reports (trace w')
         = (door_reports (trace w)
            + if c then 0 else if c' then 1 else 0)%nat
      /\ (c = true -> c' = true)
      /\ (c' = false ->
          Forall (fun x => fst x - t1 < DEBOUNCE_MS) (samples secrets es w)).
Proof.
  induction es as [|e es IH]; intros w w' c Htr Hall Hrun.
  - cbn in Hrun. injection Hrun as <-. exists c.
    split; [exact Htr|]. split; [destruct c; lia|]. split; [auto|constructor].
  - cbn [run] in Hrun. cbn [samples] in Hall |- *.
    destruct (loop secrets e w) as [[[] w1]|] eqn:HL; [|discriminate].
    inversion Hall as [|x xs [Hlev Hbound] Hall' Hx]. subst x xs.
    cbn [fst snd] in Hlev, Hbound.
    destruct (pass_tracker _ _ _ HL) as (Hr & Hat & Hs & Hd & Hck).
    cbv zeta in Hr, Hat, Hs, Hd. rewrite Hlev in *.
    destruct Htr as (Hrd & Hst). rewrite Hrd, eqb_reflx in *.
    destruct c.
    + rewrite Hst, eqb_reflx, andb_false_r in *.
      destruct (IH w1 w' true) as (c' & Htr' & Hd' & Hcc & _);
        [split; assumption | exact Hall' | exact Hrun|].
      exists c'. rewrite (Hcc eq_refl) in *.
      split; [exact Htr'|]. split; [lia|]. split; [auto|discriminate].
    + destruct Hst as (Hst & Hba & Ht1).
      rewrite Hst, Hba, wrap_sub_wrap, wrap_small, eqb_negb_r in * by lia.
      cbn [negb] in *. rewrite andb_true_r in *.
      destruct (DEBOUNCE_MS <=? clock w - t1) eqn:Hcm.
      * destruct (IH w1 w' true) as (c' & Htr' & Hd' & Hcc & _);
          [split; assumption | exact Hall' | exact Hrun|].
        exists c'. rewrite (Hcc eq_refl) in *.
        split; [exact Htr'|]. split; [lia|]. split; [auto|discriminate].
      * apply Z.leb_gt in Hcm.
        destruct (IH w1 w' false) as (c' & Htr' & Hd' & _ & Hsh);
          [repeat split; try assumption; lia | exact Hall' | exact Hrun|].
        exists c'. split; [exact Htr'|]. split; [lia|].
        split; [discriminate|]. intros Hc'. constructor; [exact Hcm|auto].
Qed.

(** C2 (debounce stability), over the samples the passes of [loop] take.
    From a state at rest (last raw read equal to the stable state):
    if every bounce is shorter than [DEBOUNCE_MS], the stable state
    never changes and nothing is reported; if the other level is
    sustained for at least [DEBOUNCE_MS], the stable state changes to it
    and exactly one change is reported.  And in any pass, the stable state
    only changes when the raw read has stayed the same since
    [lastBounceAt], at least [DEBOUNCE_MS] ago; it then takes the value
    of the raw read and the change is reported once. *)
Theorem debounce_stability :
  (forall es w w',
      lastRead (vars w) = lastStable (vars w) ->
      bounces_short (lastStable (vars w)) None (samples secrets es w) ->
      run secrets es w = Some w' ->
      lastStable (vars w') = lastStable (vars w)
      /\ door_reports (trace w') = door_reports (trace w))
  /\ (forall es w w',
        lastRead (vars w) = lastStable (vars w) ->
        sustained (negb (lastStable (vars w))) (samples secrets es w) ->
        run secrets es w = Some w' ->
        lastStable (vars w') = negb (lastStable (vars w))
        /\ door_reports (trace w') = S (door_reports (trace w)))
  /\ (forall e w w',
        loop secrets e w = Some (tt, w') ->
        lastStable (vars w') <> lastStable (vars w) ->
        lastStable (vars w') = lastRead (vars w')
        /\ lastRead (vars w') = lastRead (vars w)
        /\ lastBounceAt (vars w') = lastBounceAt (vars w)
        /\ DEBOUNCE_MS <= wrap (wrap (clock w) - lastBounceAt (vars w))
        /\ door_reports (trace w') = S (door_reports (trace w))).
Proof.
  split; [|split].
  - intros es w w' Hrest Hb Hrun.
    exact (bounces_short_run es w w' None Hrest Hb Hrun).
  - intros [|e es] w w' Hrest Hsus Hrun; [contradiction Hsus|].
    cbn [samples sustained] in Hsus. cbn [run] in Hrun.
    destruct (loop secrets e w) as [[[] w1]|] eqn:HL; [|discriminate].
    destruct Hsus as (Hall & Hex).
    inversion Hall as [|x xs [Hlev _] Hall' Hx]. subst x xs.
    cbn [fst snd] in Hlev.
    destruct (pass_tracker _ _ _ HL) as (Hr & Hat & Hs & Hd & Hck).
    cbv zeta in Hr, Hat, Hs, Hd.
    rewrite Hlev, Hrest, eqb_negb_l, wrap_sub_self in *.
    cbn [andb Z.leb DEBOUNCE_MS Z.compare] in *.
    rewrite Nat.add_0_r in Hd.
    destruct (sustained_run (lastStable (vars w)) (clock w) es w1 w' false)
      as (c' & (_ & Htr') & Hd' & _ & Hsh);
      [repeat split; assumption | exact Hall' | exact Hrun|].
    destruct c'.
    + split; [exact Htr'|lia].
    + exfalso. specialize (Hsh eq_refl).
      inversion Hex as [x xs Hx0|x xs Hx0]; subst.
      * cbn [fst] in Hx0. unfold DEBOUNCE_MS in Hx0. lia.
      * apply Exists_exists in Hx0. destruct Hx0 as (x & Hin & Hge).
        rewrite Forall_forall in Hsh. specialize (Hsh x Hin). lia.
  - intros e w w' HL Hne.
    destruct (pass_tracker _ _ _ HL) as (Hr & Hat & Hs & Hd & Hck).
    cbv zeta in Hr, Hat, Hs, Hd.
    destruct (Bool.eqb (logical_of_level (pin_level e)) (lastRead (vars w)))
      eqn:Hraw.
    + apply eqb_prop in Hraw.
      destruct (DEBOUNCE_MS <=? _) eqn:Hcm in Hs, Hd; cbn [andb] in Hs, Hd.
      * destruct (negb _) in Hs, Hd; [|congruence].
        apply Z.leb_le in Hcm. rewrite Hat.
        repeat split; [congruence | congruence | exact Hcm | lia].
      * congruence.
    + rewrite wrap_sub_self in Hs. cbn in Hs. congruence.
Qed.

Lemma run_app es1 es2 w :
  run secrets (es1 ++ es2) w
  = match run secrets es1 w with
    | Some w1 => run secrets es2 w1
    | None => None
    end.
Proof.
  revert w. induction es1 as [|e es1 IH]; intros w; cbn [app run];
    [reflexivity|].
  destruct (loop secrets e w) as [[[] w1]|]; [apply IH|reflexivity].
Qed.

Lemma boot_app d0 e0 es1 es2 :
  boot secrets d0 e0 (es1 ++ es2)
  = match boot secrets d0 e0 es1 with
    | Some w1 => run secrets es2 w1
    | None => None
    end.
Proof.
  unfold boot. destruct (setup secrets e0 (power_on d0)) as [[[] w]|];
    [apply run_app|reflexivity].
Qed.

End Proofs.

(** * Concrete executions *)

(** A fair boot, the loss of session and link, and [n] idle passes. *)
Lemma stranded_reached n :
  boot sample_secrets dev_off (fair LOW)
    (cut_off LOW :: repeat (cut_off LOW) n)
  = Some (stranded (22 + 10 * Z.of_nat n)).
Proof.
  unfold boot. eval_call setup. cbn [run]. eval_call loop.
  rewrite idle_passes by reflexivity. reflexivity.
Qed.


(** C5 fails on the code once [millis()] has wrapped around (49.7 days
    after power-on), because the reconnect test [millis() <=
    windowDeadline] compares the two 32-bit values as they stand, unlike
    the expiry test of the same step.

    First execution: a status is published at 4294966372 ms, 924 ms
    before the wrap-around, so the deadline wraps to 599076.  Ten
    milliseconds later the broker drops the session, the link is up and
    the window has 599990 ms left (the expiry test says so), yet step 3
    makes no reconnect.

    Second execution: after the boot publish (deadline 600012) session and
    link are lost and never torn down; past the wrap-around, at
    4294967302 ms, the link is back and [millis()] reads 6: step 3
    reconnects, 49.7 days after the window expired. *)
Lemma reconnect_test_ignores_wraparound :
  (exists w w',
      boot sample_secrets dev_off (fair LOW)
        ((cut_off LOW :: repeat (cut_off LOW) (Z.to_nat 429496627))
         ++ repeat (cut_off HIGH) 8 ++ [fair HIGH]) = Some w
      /\ clock w = 4294966382
      /\ latest (status_sent (trace w)) = Some ("open", true)
      /\ windowDeadline (vars w) = wrap (4294966372 + WINDOW_MS)
      /\ dirty (vars w) = false
      /\ as_long (wrap (clock w) - windowDeadline (vars w)) = -599990
      /\ loop sample_secrets (broker_drop HIGH) w = Some (tt, w')
      /\ link (dev w') = true /\ session (dev w') = false
      /\ connects (trace w') = connects (trace w)
      /\ reconnects (trace w') = reconnects (trace w))
  /\ (exists w w',
        boot sample_secrets dev_off (fair LOW)
          (cut_off LOW :: repeat (cut_off LOW) (Z.to_nat 429496728)) = Some w
        /\ clock w = 4294967302
        /\ windowDeadline (vars w) = 12 + WINDOW_MS
        /\ dirty (vars w) = false
        /\ loop sample_secrets (broker_drop LOW) w = Some (tt, w')
        /\ connects (trace w') = connects (trace w) ++ [true]
        /\ reconnects (trace w') = S (reconnects (trace w))).
Proof.
  split.
  - eexists _, _. split.
    { rewrite boot_app, stranded_reached, Z2Nat.id by lia.
      change (22 + 10 * 429496627) with 4294966292.
      vm_compute. reflexivity. }
    repeat (match goal with |- _ /\ _ => split end); vm_compute; reflexivity.
  - exists (stranded 4294967302). eexists. split.
    { rewrite stranded_reached, Z2Nat.id by lia. reflexivity. }
    repeat (match goal with |- _ /\ _ => split end); vm_compute; reflexivity.
Qed.

(** ** Instances of the theorems *)

(** C10 at work: a fair boot with the door closed, then the door opens
    and ten passes later nothing is pending: the last accepted publish is
    "open". *)
Lemma published_matches_stable_witness :
  exists w,
    boot sample_secrets dev_off (fair LOW) (repeat (fair HIGH) 10) = Some w
    /\ dirty (vars w) = false
    /\ lastStable (vars w) = true
    /\ latest (status_sent (trace w)) = Some ("open", true).
Proof.
  eexists. split; [vm_compute; reflexivity|].
  split; [reflexivity|]. split; [reflexivity|].
  apply (published_matches_stable sample_secrets dev_off (fair LOW)
           (repeat (fair HIGH) 10)); reflexivity.
Defined.

Lemma fair_cooperative level : cooperative (fair level).
Proof.
  split; [|split; reflexivity]. exists 0%N. split; [reflexivity|].
  vm_compute. discriminate.
Defined.

(** C2 at work, from the state [stranded 22] (door closed, at rest).
    A bounce of two samples 10 ms apart leaves the stable state alone;
    nine samples "open" over 80 ms change it once; and the pass that
    changes it finds the raw read unchanged for 80 ms. *)
Lemma debounce_stability_witness :
  (exists w',
      run sample_secrets [cut_off HIGH; cut_off HIGH; cut_off LOW]
        (stranded 22) = Some w'
      /\ lastStable (vars w') = false
      /\ door_reports (trace w') = 0%nat)
  /\ (exists w',
        run sample_secrets (repeat (cut_off HIGH) 9) (stranded 22) = Some w'
        /\ lastStable (vars w') = true
        /\ door_reports (trace w') = 1%nat)
  /\ (exists w w',
        run sample_secrets (repeat (cut_off HIGH) 8) (stranded 22) = Some w
        /\ loop sample_secrets (cut_off HIGH) w = Some (tt, w')
        /\ lastStable (vars w') = true
        /\ 80 <= wrap (wrap (clock w) - lastBounceAt (vars w))).
Proof.
  destruct (debounce_stability sample_secrets) as (Hshort & Hsust & Hinv).
  split; [|split].
  - eexists. split; [vm_compute; reflexivity|].
    apply (Hshort [cut_off HIGH; cut_off HIGH; cut_off LOW] (stranded 22));
      [reflexivity | vm_compute; repeat split | reflexivity].
  - eexists. split; [vm_compute; reflexivity|].
    apply (Hsust (repeat (cut_off HIGH) 9) (stranded 22));
      [reflexivity | | reflexivity].
    match goal with
    | |- sustained _ ?xs =>
        let r := eval vm_compute in xs in change xs with r
    end.
    split; [repeat constructor|].
    do 8 apply Exists_cons_tl. apply Exists_cons_hd. discriminate.
  - eexists _, _. split; [vm_compute; reflexivity|].
    split; [vm_compute; reflexivity|].
    match goal with
    | |- lastStable (vars ?w') = true /\ 80 <= wrap (wrap (clock ?w) - _) =>
        destruct (Hinv (cut_off HIGH) w w') as (_ & _ & _ & Hge & _);
        [vm_compute; reflexivity | vm_compute; discriminate |]
    end.
    split; [reflexivity | exact Hge].
Defined.

(** C3 at work: the boot cannot send "closed"; the door opens while the
    device is cut off; the first fair pass sends "open", once. *)
Lemma one_publish_per_dirty_period_witness :
  exists w w',
    boot sample_secrets dev_off (cut_off LOW) [] = Some w
    /\ dirty_period sample_secrets w [cut_off HIGH; fair HIGH] w'
    /\ status_sent (trace w) = []
    /\ status_sent (trace w') = [("open", true)].
Proof.
  eexists _, _. split; [vm_compute; reflexivity|].
  assert (forall A B C : Prop, A -> (A -> B) -> (A -> C) -> A /\ B /\ C)
    as Hcut by tauto.
  apply Hcut.
  - eapply period_unsent;
      [vm_compute; reflexivity | reflexivity | vm_compute; reflexivity
      | reflexivity |].
    eapply period_sent;
      [vm_compute; reflexivity | reflexivity | vm_compute; reflexivity
      | reflexivity].
  - intros _. reflexivity.
  - intros Hp.
    exact (proj1 (one_publish_per_dirty_period sample_secrets) _ _ _ Hp).
Defined.

(** C6 at work: the log of a fair boot followed by a dropped session and
    a reconnect is paired. *)
Lemma availability_pairing_witness :
  exists w,
    boot sample_secrets dev_off (fair LOW) [broker_drop LOW] = Some w
    /\ connects (trace w) = [true; true]
    /\ paired (keys (trace w)).
Proof.
  eexists. split; [vm_compute; reflexivity|]. split; [reflexivity|].
  apply (proj2 (proj2 (availability_pairing sample_secrets))
           dev_off (fair LOW) [broker_drop LOW]).
  reflexivity.
Defined.

(** C7 at work: a fair boot with the door closed. *)
Lemma boot_publish_witness :
  exists w,
    setup sample_secrets (fair LOW) (power_on dev_off) = Some (tt, w)
    /\ status_sent (trace w) = [("closed", true)]
    /\ status_tried (trace w) = [("closed", true, true)]
    /\ door_reports (trace w) = 0%nat.
Proof.
  exact (proj1 (proj2 (boot_publish sample_secrets)) dev_off (fair LOW)
           eq_refl (fair_cooperative LOW)).
Defined.

(** C9 at work: the boot and two passes find no access point, then the
    link comes up while the broker stays away: no status was ever sent,
    and no reconnect was attempted. *)
Lemma no_reconnect_before_first_publish_witness :
  exists w,
    boot sample_secrets dev_off (cut_off LOW)
      [cut_off LOW; broker_drop_refused LOW] = Some w
    /\ link (dev w) = true
    /\ windowDeadline (vars w) = 0
    /\ reconnects (trace w) = 0%nat.
Proof.
  eexists. split; [vm_compute; reflexivity|]. split; [reflexivity|].
  apply (proj1 (no_reconnect_before_first_publish sample_secrets)
           dev_off (cut_off LOW) [cut_off LOW; broker_drop_refused LOW]);
    reflexivity.
Defined.

(** * Further properties of the sketch *)

Section More.

Variable secrets : Secrets.

(** ** The bounded wait for the link *)

(** The polling loop in time: with a timeout and a start that are
    multiples of the 50 ms poll, it leaves at the first poll at which the
    station is associated, and at the timeout otherwise. *)
Lemma wifiWait_timing budget began T m e :
  forall v r l s c tr k,
    T = 50 * m -> 0 <= m -> T + 50 <= 2 ^ 32 ->
    c - began = 50 * k -> 0 <= k <= m ->
    T - (c - began) <= 50 * Z.of_nat budget ->
    exists c',
      wifiWait budget began (wrap began) T e
        {| vars := v; dev := {| radio := r; link := l; session := s |};
           clock := c; trace := tr |}
      = Some (tt, {| vars := v;
                     dev := {| radio := r;
                               link := r && match wifi_join e with
                                            | Some d => began + Z.of_N d <=? c'
                                            | None => false
                                            end;
                               session := s |};
                     clock := c'; trace := tr |})
      /\ c <= c' <= began + T
      /\ (r = false -> c' = began + T)
      /\ (forall d, wifi_join e = Some d ->
          (began + Z.of_N d <= c -> r = true -> c' = c)
          /\ (c < began + Z.of_N d <= began + T -> r = true ->
              began + Z.of_N d <= c' < began + Z.of_N d + 50)
          /\ (began + T < began + Z.of_N d -> c' = began + T))
      /\ (wifi_join e = None -> c' = began + T).
Proof.
  induction budget as [|n IH]; intros v r l s c tr k HT Hm HT32 Hk Hkm Hb;
    cbn [wifiWait]; run_prog;
    set (up := r && _); destruct up eqn:Hup; subst up; run_prog.
  1, 3: exists c; rewrite Hup; (split; [reflexivity|]);
    apply andb_prop in Hup; destruct Hup as [-> Hup];
    destruct (wifi_join e) as [d0|]; [|discriminate];
    apply Z.leb_le in Hup;
    (split; [lia|]); (split; [discriminate|]); (split; [|discriminate]);
    intros d [= <-]; repeat split; intros; lia.
  all: rewrite wrap_sub_wrap, wrap_small by lia;
    destruct (c - began <? T) eqn:Hlt; run_prog;
    [apply Z.ltb_lt in Hlt | apply Z.ltb_ge in Hlt].
  - lia.
  - exists c. rewrite Hup. split; [reflexivity|].
    repeat split; intros; lia.
  - destruct (IH v r false s (c + 50) tr (k + 1))
      as (c' & Heq & Hc & Hr & Hd & Hn); try lia.
    rewrite Heq. exists c'. split; [reflexivity|]. split; [lia|].
    split; [exact Hr|]. split; [|exact Hn].
    intros d Hj. destruct (Hd d Hj) as (A & B & C).
    split; [|split; [|exact C]].
    + intros Hle ->. rewrite Hj in Hup. cbn in Hup.
      apply Z.leb_gt in Hup. lia.
    + intros Hin Hr1.
      destruct (Z_le_gt_dec (began + Z.of_N d) (c + 50)) as [Hle|Hgt].
      * rewrite (A Hle Hr1). lia.
      * apply B; [lia|exact Hr1].
  - exists c. rewrite Hup. split; [reflexivity|].
    repeat split; intros; lia.
Qed.

(** [wifiEnsureConnected(8000)] in closed form, up to the time [c'] at
    which the wait ends. *)
Lemma wifiEnsureConnected_timing e w :
  (radio (dev w) && link_pre e = true ->
   wifiEnsureConnected secrets 8000 e w
   = Some (true, {| vars := vars w;
                    dev := {| radio := radio (dev w); link := true;
                              session := session (dev w) |};
                    clock := clock w; trace := trace w |}))
  /\ (radio (dev w) && link_pre e = false ->
      exists c',
        let up := match wifi_join e with
                  | Some d => clock w + 1 + Z.of_N d <=? c'
                  | None => false
                  end in
        wifiEnsureConnected secrets 8000 e w
        = Some (up, {| vars := vars w;
                       dev := {| radio := true; link := up;
                                 session := session (dev w) |};
                       clock := c';
                       trace := trace w ++ wake_calls secrets |})
        /\ clock w + 1 <= c' <= clock w + 8001
        /\ (forall d, wifi_join e = Some d ->
            (Z.of_N d <= 8000 ->
             clock w + 1 + Z.of_N d <= c' < clock w + 1 + Z.of_N d + 50)
            /\ (8000 < Z.of_N d -> c' = clock w + 8001))
        /\ (wifi_join e = None -> c' = clock w + 8001)).
Proof.
  destruct w as [v [r l s] c tr]. unfold wifiEnsureConnected.
  assert (8000 <= 50 * Z.of_nat (Z.to_nat (8000 / 50 + 1))) as Hbudget
    by (change (8000 / 50 + 1) with 161; lia).
  revert Hbudget. generalize (Z.to_nat (8000 / 50 + 1)) as budget.
  intros budget Hbudget. run_prog.
  split; intros Hup; rewrite Hup; run_prog; [reflexivity|].
  destruct (wifiWait_timing budget (c + 1) 8000 160 e
              v true false s (c + 1)
              (((((tr ++ [WifiForceSleepWake]) ++ [WifiSetMode WIFI_STA])
                 ++ [WifiPersistent false]) ++ [WifiSetAutoReconnect false])
                 ++ [WifiBegin (WIFI_SSID secrets) (WIFI_PASS secrets)]) 0)
    as (c' & Heq & Hc & _ & Hd & Hn); try lia.
  rewrite Heq. run_prog. exists c'.
  split; [unfold wake_calls; rewrite <- !app_assoc; reflexivity|].
  split; [lia|]. split.
  - intros d Hj. destruct (Hd d Hj) as (A & B & C). split.
    + intros Hle. destruct (Z.eq_dec (Z.of_N d) 0) as [H0|H0].
      * rewrite A by (auto; lia). lia.
      * apply B; [lia|reflexivity].
    + intros Hgt. rewrite C by lia. lia.
  - intros Hj. rewrite (Hn Hj). lia.
Qed.

(** X2 (bounded wait for the link).  [wifiEnsureConnected(8000)] always
    returns, at most 8001 ms after it was called; a failure takes exactly
    that long and leaves the radio powered.  It returns whether the link is
    up, and touches neither the sketch's variables nor the broker session.
    The calls it logs are the five that wake the radio and start the
    association, once and in that order, or none at all: no MQTT call of
    any kind, no power-down and no print. *)
Theorem link_wait_bounded :
  forall e w,
  exists b w' tr,
    wifiEnsureConnected secrets 8000 e w = Some (b, w')
    /\ vars w' = vars w
    /\ session (dev w') = session (dev w)
    /\ link (dev w') = b
    /\ trace w' = trace w ++ tr
    /\ (tr = [] \/ tr = wake_calls secrets)
    /\ keys (trace w') = keys (trace w)
    /\ clock w <= clock w' <= clock w + 8001
    /\ (b = false -> clock w' = clock w + 8001 /\ radio (dev w') = true).
Proof.
  intros e w. destruct (wifiEnsureConnected_timing e w) as [Hfast Hslow].
  destruct (radio (dev w) && link_pre e) eqn:Hup.
  - eexists _, _, []. split; [exact (Hfast eq_refl)|]. cbn.
    rewrite app_nil_r. repeat split; try lia; auto; discriminate.
  - destruct (Hslow eq_refl) as (c' & Heq & Hc & Hd & Hn). cbv zeta in Heq.
    eexists _, _, (wake_calls secrets). split; [exact Heq|].
    cbn [vars dev clock trace session link radio].
    repeat (split; [reflexivity|]).
    split; [right; reflexivity|].
    split; [rewrite keys_app, app_nil_r; reflexivity|].
    split; [lia|]. intros Hb. split; [|reflexivity].
    destruct (wifi_join e) as [d|] eqn:Hj; [|apply Hn; reflexivity].
    destruct (Hd d eq_refl) as [Hin Hout].
    apply Z.leb_gt in Hb.
    destruct (Z_le_gt_dec (Z.of_N d) 8000) as [Hle|Hgt]; [|apply Hout; lia].
    specialize (Hin Hle). lia.
Qed.

(** X3 (outcome of the wait for the link).  [wifiEnsureConnected(8000)]
    reports the link up exactly when it was up already or the access
    point answers within the 8000 ms.  When the link was up already it
    returns at once and calls nothing: the radio is not woken again.
    Otherwise it wakes the radio and starts the association, once, and
    when the access point answers after [d <= 8000] ms it returns less
    than 50 ms (one poll) after that. *)
Theorem link_wait_outcome :
  forall e w,
  exists b w',
    wifiEnsureConnected secrets 8000 e w = Some (b, w')
    /\ (b = true <->
        radio (dev w) && link_pre e = true
        \/ exists d, wifi_join e = Some d /\ Z.of_N d <= 8000)
    /\ (radio (dev w) && link_pre e = true ->
        clock w' = clock w /\ trace w' = trace w
        /\ radio (dev w') = radio (dev w))
    /\ (radio (dev w) && link_pre e = false ->
        trace w' = trace w ++ wake_calls secrets
        /\ radio (dev w') = true
        /\ forall d, wifi_join e = Some d -> Z.of_N d <= 8000 ->
           clock w + 1 + Z.of_N d <= clock w'
           < clock w + 1 + Z.of_N d + 50).
Proof.
  intros e w. destruct (wifiEnsureConnected_timing e w) as [Hfast Hslow].
  destruct (radio (dev w) && link_pre e) eqn:Hup.
  - eexists _, _. split; [exact (Hfast eq_refl)|]. cbn.
    split; [split; auto|]. split; [auto|discriminate].
  - destruct (Hslow eq_refl) as (c' & Heq & Hc & Hd & Hn). cbv zeta in Heq.
    eexists _, _. split; [exact Heq|]. cbn [vars dev clock trace radio].
    split; [|split; [discriminate|]].
    + destruct (wifi_join e) as [d|] eqn:Hj.
      * destruct (Hd d eq_refl) as [Hin Hout]. split.
        -- intros Hb. right. exists d. split; [reflexivity|].
           apply Z.leb_le in Hb.
           destruct (Z_le_gt_dec (Z.of_N d) 8000) as [Hle|Hgt]; [exact Hle|].
           specialize (Hout ltac:(lia)). lia.
        -- intros [Hf|(d' & [= <-] & Hle)]; [discriminate|].
           apply Z.leb_le. specialize (Hin Hle). lia.
      * split; [discriminate|].
        intros [Hf|(d' & Hf & _)]; discriminate.
    + intros _. split; [reflexivity|]. split; [reflexivity|].
      intros d Hj Hle. destruct (Hd d Hj) as [Hin _].
      specialize (Hin Hle). lia.
Qed.

(** ** Duration of a pass, and the radio *)

Lemma wifiEnsureConnected_span e w :
  exists b c' tr,
    wifiEnsureConnected secrets 8000 e w
    = Some (b, {| vars := vars w;
                  dev := {| radio := true; link := b;
                            session := session (dev w) |};
                  clock := c'; trace := trace w ++ tr |})
    /\ clock w <= c' <= clock w + 8001
    /\ (tr = [] \/ tr = wake_calls secrets).
Proof.
  destruct (wifiEnsureConnected_timing e w) as [Hfast Hslow].
  destruct (radio (dev w) && link_pre e) eqn:Hup.
  - exists true, (clock w), []. rewrite app_nil_r, (Hfast eq_refl).
    apply andb_prop in Hup. destruct Hup as [-> _].
    split; [reflexivity|]. split; [lia|auto].
  - destruct (Hslow eq_refl) as (c' & Heq & Hc & _). cbv zeta in Heq.
    eexists _, c', _. split; [exact Heq|]. split; [lia|auto].
Qed.

(** Step 2 with a status pending: the radio is powered afterwards, and
    the step took at most the wait for the link and its network calls. *)
Lemma ensure_span e w :
  dirty (vars w) = true ->
  exists w',
    ensureMqttAndPublishIfDirty secrets e w = Some (tt, w')
    /\ radio (dev w') = true
    /\ clock w <= clock w'
       <= clock w + 8001
          + Z.of_N (took (hs_connect (hs_pub e)))
          + Z.of_N (took (hs_birth (hs_pub e)))
          + Z.of_N (took (status_pub e)).
Proof.
  destruct w as [[st rd ba di wd] [r l s] c tr]. cbn. intros ->.
  unfold ensureMqttAndPublishIfDirty. run_prog.
  destruct (r && link_pre e) eqn:Hup; run_prog;
    match goal with
    | |- context [wifiEnsureConnected _ _ _ ?W] =>
        destruct (wifiEnsureConnected_span e W)
          as (b & c' & wk & Heq & Hc & _); rewrite Heq; clear Heq
    end; cbn in Hc; destruct b; run_prog;
    try (destruct (s && sess_pre e) eqn:Hlive; run_prog);
    rewrite ?(mqttConnect_eq secrets); run_prog;
    try (destruct (ok (hs_connect (hs_pub e))) eqn:Hconn; run_prog);
    try (destruct (ok (status_pub e)) eqn:Hpub; run_prog);
    rewrite ?Hlive; run_prog;
    (eexists; split; [reflexivity|]; cbn; split; [reflexivity|]; lia).
Qed.

(** Step 3 in time and on the device. *)
Lemma loop_window_span e w w' :
  loop_window secrets e w = Some (tt, w') ->
  clock w <= clock w'
  <= clock w + 1 + Z.of_N (took (hs_connect (hs_re e)))
     + Z.of_N (took (hs_birth (hs_re e)))
  /\ (device_sane (dev w) -> device_sane (dev w')).
Proof.
  rewrite (loop_window_eq secrets). intros [= <-]. unfold device_sane.
  destruct w as [v [r l s] c tr]. cbn [dev session radio link clock vars].
  destruct (s && sess_post e) eqn:Hlive;
    [destruct (expired_idle v (wrap c))
    |destruct (r && link_post e && window_open v (wrap c)) eqn:Hre];
    cbn [dev session radio link clock]; (split; [|intros Hs Hr]).
  all: try (destruct (ok (hs_connect (hs_re e))); lia).
  - auto.
  - apply andb_prop in Hlive. destruct Hlive as [-> _].
    destruct (Hs Hr); discriminate.
  - subst r. discriminate.
  - subst r. auto.
Qed.

Lemma pass_device e w w' :
  loop secrets e w = Some (tt, w') ->
  device_sane (dev w) -> device_sane (dev w').
Proof.
  intros HL Hs.
  destruct (loop_steps secrets e w) as (w1 & w2 & w3 & H1 & H2 & H3 & HL').
  rewrite HL' in HL. injection HL as <-. clear HL'. cbn [dev].
  apply (loop_window_span _ _ _ H3).
  destruct (debounce_frame _ _ _ H1) as (Hd & _).
  destruct (dirty (vars w1)) eqn:Hd1.
  - destruct (ensure_span e w1 Hd1) as (w2' & H2' & Hr & _).
    rewrite H2 in H2'. injection H2' as <-.
    intros Hoff. congruence.
  - rewrite (ensure_clean secrets e w1 Hd1) in H2. injection H2 as <-.
    rewrite Hd. exact Hs.
Qed.

Lemma setup_device d0 e w :
  setup secrets e (power_on d0) = Some (tt, w) -> radio (dev w) = true.
Proof.
  rewrite (setup_eq secrets). intros H.
  destruct (ensure_span e (booted e) eq_refl) as (w' & H' & Hr & _).
  rewrite H in H'. injection H' as <-. exact Hr.
Qed.

Lemma reachable_device d0 e0 es w :
  boot secrets d0 e0 es = Some w -> device_sane (dev w).
Proof.
  revert es w. apply boot_ind.
  - intros w H Hoff. rewrite (setup_device _ _ _ H) in Hoff. discriminate.
  - intros e w w' Hs HL. eapply pass_device; eassumption.
Qed.

(** ** The window in real time *)

Lemma as_long_sub a b :
  - 2 ^ 31 <= a - b < 2 ^ 31 -> as_long (wrap a - wrap b) = a - b.
Proof.
  intros H. unfold as_long. rewrite wrap_sub_wrap.
  destruct (Z_lt_ge_dec (a - b) 0) as [Hneg|Hpos].
  - assert (wrap (a - b) = a - b + 2 ^ 32) as ->.
    { unfold wrap. rewrite <- (Z_mod_plus_full (a - b) 1 (2 ^ 32)).
      rewrite Z.mul_1_l. apply Z.mod_small. lia. }
    destruct (a - b + 2 ^ 32 <? 2 ^ 31) eqn:Hlt;
      [apply Z.ltb_lt in Hlt|]; lia.
  - rewrite wrap_small by lia.
    destruct (a - b <? 2 ^ 31) eqn:Hlt; [|apply Z.ltb_ge in Hlt]; lia.
Qed.

Lemma wrap_add_wrap a b : wrap (wrap a + b) = wrap (a + b).
Proof. unfold wrap. apply Zplus_mod_idemp_l. Qed.

(** The expiry test of step 3 against real time: exact as long as the
    clock is within 2^31 ms of the deadline. *)
Lemma expired_idle_exact v since c :
  windowDeadline v = wrap (wrap since + WINDOW_MS) ->
  - 2 ^ 31 <= c - (since + WINDOW_MS) < 2 ^ 31 ->
  expired_idle v (wrap c) = negb (dirty v) && (since + WINDOW_MS <=? c).
Proof.
  intros Hw Hr. unfold expired_idle. rewrite Hw, wrap_add_wrap.
  rewrite as_long_sub by lia. f_equal.
  destruct (since + WINDOW_MS <=? c) eqn:H1; destruct (0 <=? _) eqn:H2;
    try reflexivity;
    rewrite ?Z.leb_le, ?Z.leb_gt in *; lia.
Qed.

(** The reconnect test of step 3 against real time: exact as long as
    neither the clock nor the deadline has passed 2^32 ms. *)
Lemma window_open_exact v since c :
  windowDeadline v = wrap (wrap since + WINDOW_MS) ->
  0 <= since -> 0 <= c < 2 ^ 32 -> since + WINDOW_MS < 2 ^ 32 ->
  window_open v (wrap c) = (c <=? since + WINDOW_MS).
Proof.
  intros Hw Hs Hc Hd. unfold window_open. rewrite Hw, wrap_add_wrap.
  change WINDOW_MS with 600000 in *. rewrite !wrap_small by lia.
  replace (since + 600000 =? 0) with false; [reflexivity|].
  symmetry. apply Z.eqb_neq. lia.
Qed.

(** One pass inside or at the end of the window, session alive, door at
    rest. *)
Lemma keepalive_pass level since e w :
  steady level e -> in_window level since w ->
  clock w - (since + WINDOW_MS) < 2 ^ 31 ->
  exists w',
    loop secrets e w = Some (tt, w')
    /\ vars w' = vars w
    /\ if since + WINDOW_MS <=? clock w
       then dev w' = dev_off /\ clock w' = clock w + 11
            /\ teardowns (trace w') = S (teardowns (trace w))
       else dev w' = dev w /\ clock w' = clock w + 10
            /\ trace w' = trace w ++ [MqttLoop].
Proof.
  intros [Hpin Hsess] (Hrd & Hst & Hd & Hw & Hs & Hsince) Hr.
  destruct (loop_steps secrets e w) as (w1 & w2 & w3 & H1 & H2 & H3 & ->).
  assert (w1 = w) as ->.
  { rewrite loop_debounce_eq in H1. injection H1 as <-.
    destruct w as [[st rd ba di wd] d c tr]. cbn in *. subst.
    rewrite eqb_reflx, andb_false_r, app_nil_r. reflexivity. }
  rewrite (ensure_clean secrets e w Hd) in H2. injection H2 as <-.
  rewrite (loop_window_eq secrets) in H3. injection H3 as <-.
  rewrite Hs, Hsess. cbn [andb].
  rewrite (expired_idle_exact _ since);
    [|exact Hw|change WINDOW_MS with 600000 in *; lia].
  rewrite Hd. cbn [negb andb].
  eexists. split; [reflexivity|].
  destruct (since + WINDOW_MS <=? clock w); cbn [vars dev clock trace].
  - split; [reflexivity|]. split; [reflexivity|]. split; [lia|].
    rewrite teardowns_app.
    replace (teardowns (_ :: _ :: teardown_events)) with 1%nat by reflexivity.
    lia.
  - split; [reflexivity|]. split; [|split; [lia|reflexivity]].
    destruct (dev w) as [r l s]. cbn in *. subst. reflexivity.
Qed.

(** Passes inside the window keep the session and change nothing. *)
Lemma keepalive_passes level since es :
  forall w,
    Forall (steady level) es -> in_window level since w ->
    clock w + 10 * Z.of_nat (List.length es) < since + WINDOW_MS + 10 ->
    exists w',
      run secrets es w = Some w'
      /\ vars w' = vars w /\ dev w' = dev w
      /\ clock w' = clock w + 10 * Z.of_nat (List.length es)
      /\ teardowns (trace w') = teardowns (trace w).
Proof.
  induction es as [|e es IH]; intros w Hall Hin Hlen.
  - exists w. cbn. repeat split; lia.
  - inversion Hall as [|x xs He Hes]. subst x xs.
    cbn [List.length] in Hlen. rewrite Nat2Z.inj_succ in Hlen.
    destruct (keepalive_pass level since e w He Hin)
      as (w1 & HL & Hv & Hcase); [lia|].
    replace (since + WINDOW_MS <=? clock w) with false in Hcase
      by (symmetry; apply Z.leb_gt; lia).
    destruct Hcase as (Hdev & Hck & Htr).
    destruct (IH w1) as (w' & Hrun & Hv' & Hd' & Hc' & Ht'); [exact Hes| |lia|].
    { destruct Hin as (? & ? & ? & ? & ? & ?).
      unfold in_window. rewrite Hv, Hdev. repeat split; try assumption. lia. }
    exists w'. cbn [run]. rewrite HL. split; [exact Hrun|].
    cbn [List.length]. rewrite Nat2Z.inj_succ.
    repeat split; try congruence; [lia|].
    rewrite Ht', Htr, teardowns_app. cbn. lia.
Qed.

(** X4 (the window in real time).  After a status publish at time
    [since], with the session alive and the door at rest: the passes that
    start before [since + WINDOW_MS] keep session, link and radio as
    they are and never power down; the first pass that starts at or after
    it (within 2^31 ms) calls [wifiRadioSleep], once, and leaves the
    radio off with no session.  The 32-bit wrap of [millis()] does not
    matter. *)
Theorem window_expiry :
  forall level since es e w,
    Forall (steady level) es -> steady level e ->
    in_window level since w ->
    clock w + 10 * Z.of_nat (List.length es) < since + WINDOW_MS + 10 ->
    exists wn,
      run secrets es w = Some wn
      /\ dev wn = dev w
      /\ teardowns (trace wn) = teardowns (trace w)
      /\ clock wn = clock w + 10 * Z.of_nat (List.length es)
      /\ (since + WINDOW_MS <= clock wn < since + WINDOW_MS + 2 ^ 31 ->
          exists w',
            loop secrets e wn = Some (tt, w')
            /\ dev w' = dev_off
            /\ teardowns (trace w') = S (teardowns (trace wn))).
Proof.
  intros level since es e w Hall He Hin Hlen.
  destruct (keepalive_passes level since es w Hall Hin Hlen)
    as (wn & Hrun & Hv & Hd & Hc & Ht).
  exists wn. repeat (split; [assumption|]).
  intros Hexp.
  assert (in_window level since wn) as Hin'.
  { destruct Hin as (? & ? & ? & ? & ? & ?).
    unfold in_window. rewrite Hv, Hd. repeat split; try assumption. lia. }
  destruct (keepalive_pass level since e wn He Hin')
    as (w' & HL & _ & Hcase); [lia|].
  replace (since + WINDOW_MS <=? clock wn) with true in Hcase
    by (symmetry; apply Z.leb_le; lia).
  exists w'. tauto.
Qed.
(** ** The radio and the session *)

(** X5 (no session without radio).  In every state reached from
    power-on, whatever the device was doing before and whatever the
    environments: if the radio is powered down, the link is down and the
    broker session is closed; the sketch closes the session before it
    powers the radio down and opens one only with the radio on. *)
Theorem radio_off_means_offline :
  forall d0 e0 es,
    exists w,
      boot secrets d0 e0 es = Some w
      /\ (radio (dev w) = false ->
          link (dev w) = false /\ session (dev w) = false)
      /\ (session (dev w) = true -> radio (dev w) = true).
Proof.
  intros d0 e0 es.
  assert (exists w, boot secrets d0 e0 es = Some w) as [w Hw].
  { unfold boot. destruct (setup_total secrets d0 e0) as [w0 ->].
    apply run_total. }
  exists w. split; [exact Hw|].
  pose proof (reachable_device _ _ _ _ Hw) as Hs. unfold device_sane in Hs.
  split; [exact Hs|].
  intros Hon. destruct (radio (dev w)); [reflexivity|].
  destruct (Hs eq_refl) as [_ Hoff]. congruence.
Qed.

(** ** Asleep until the door moves *)

Lemma wakes_app a b : wakes (a ++ b) = (wakes a + wakes b)%nat.
Proof. apply count_app. Qed.

Lemma wakes_handshake hs : wakes (handshake_events secrets hs) = 0%nat.
Proof. unfold handshake_events. destruct (ok (hs_connect hs)); reflexivity. Qed.

(** Step 2 with a status pending wakes the radio exactly when the link
    is not up. *)
Lemma ensure_wakes e w :
  dirty (vars w) = true ->
  exists w',
    ensureMqttAndPublishIfDirty secrets e w = Some (tt, w')
    /\ wakes (trace w')
       = (wakes (trace w) + if radio (dev w) && link_pre e then 0 else 1)%nat
    /\ (dirty (vars w') = false ->
        windowDeadline (vars w') = wrap (wrap (clock w') + WINDOW_MS))
    /\ clock w + (if radio (dev w) && link_pre e then 0 else 1) <= clock w'.
Proof.
  destruct w as [[st rd ba di wd] [r l s] c tr]. cbn. intros ->.
  unfold ensureMqttAndPublishIfDirty. run_prog.
  destruct (r && link_pre e) eqn:Hup; run_prog;
    match goal with
    | |- context [wifiEnsureConnected _ _ _ ?W] =>
        destruct (wifiEnsureConnected_timing e W) as [Hfast Hslow]
    end; cbn [radio dev vars clock trace session link] in Hfast, Hslow.
  - rewrite (Hfast Hup). clear Hfast Hslow. run_prog.
    destruct (s && sess_pre e) eqn:Hlive; run_prog;
      rewrite ?(mqttConnect_eq secrets); run_prog;
      try (destruct (ok (hs_connect (hs_pub e))) eqn:Hconn; run_prog);
      try (destruct (ok (status_pub e)) eqn:Hpub; run_prog);
      rewrite ?Hlive; run_prog;
      (eexists; split; [reflexivity|]; split;
       [cbn [trace]; rewrite ?wakes_app, ?wakes_handshake; cbn;
        unfold wakes, count; lia
       |split;
        [cbn [vars dirty windowDeadline clock]; intros Hsent;
         solve [discriminate Hsent | reflexivity]
        |cbn [clock]; lia]]).
  - destruct (Hslow Hup) as (c' & Heq & Hc & _). clear Hfast Hslow.
    cbv zeta in Heq.
    set (up := match wifi_join e with Some _ => _ | None => _ end) in Heq.
    clearbody up. rewrite Heq. clear Heq.
    destruct up; run_prog;
      try (destruct (s && sess_pre e) eqn:Hlive; run_prog);
      rewrite ?(mqttConnect_eq secrets); run_prog;
      try (destruct (ok (hs_connect (hs_pub e))) eqn:Hconn; run_prog);
      try (destruct (ok (status_pub e)) eqn:Hpub; run_prog);
      rewrite ?Hlive; run_prog;
      (eexists; split; [reflexivity|]; split;
       [cbn [trace]; rewrite ?wakes_app, ?wakes_handshake; cbn;
        unfold wakes, count; lia
       |split;
        [cbn [vars dirty windowDeadline clock]; intros Hsent;
         solve [discriminate Hsent | reflexivity]
        |cbn [clock]; lia]]).
Qed.
(** A window that has just been opened has not expired. *)
Lemma fresh_not_expired v c :
  windowDeadline v = wrap (wrap c + WINDOW_MS) ->
  expired_idle v (wrap c) = false.
Proof.
  intros Hw. rewrite (expired_idle_exact v c c Hw).
  - replace (c + WINDOW_MS <=? c) with false; [apply andb_false_r|].
    symmetry. apply Z.leb_gt. change WINDOW_MS with 600000. lia.
  - change WINDOW_MS with 600000. lia.
Qed.

(** A pass that enters step 2 with a status pending: step 3 does not
    power down, whether the status was sent or not. *)
Lemma pending_pass e w w1 w' :
  loop_debounce e w = Some (tt, w1) -> dirty (vars w1) = true ->
  loop secrets e w = Some (tt, w') ->
  radio (dev w') = true
  /\ teardowns (trace w') = teardowns (trace w)
  /\ wakes (trace w')
     = (wakes (trace w) + if radio (dev w) && link_pre e then 0 else 1)%nat.
Proof.
  intros H1 Hd1 HL.
  destruct (loop_steps secrets e w) as (w1' & w2 & w3 & H1' & H2 & H3 & HL').
  rewrite H1 in H1'. injection H1' as <-.
  rewrite HL' in HL. injection HL as <-. clear HL'. cbn [dev trace].
  destruct (ensure_span e w1 Hd1) as (w2' & H2' & Hr2 & _).
  rewrite H2 in H2'. injection H2' as <-.
  destruct (ensure_wakes e w1 Hd1) as (w2' & H2' & Hw2 & Hfresh & _).
  rewrite H2 in H2'. injection H2' as <-.
  destruct (ensure_dirty secrets e w1 Hd1) as (w2' & tr & H2' & Htr & _ & HS).
  rewrite H2 in H2'. injection H2' as <-.
  pose proof (step2_teardowns secrets _ _ _ _ HS) as Ht2.
  destruct (debounce_counts _ _ _ H1) as (_ & Ht1 & _).
  destruct (debounce_frame _ _ _ H1) as (Hdev1 & _ & _ & _ & Htr1).
  assert (wakes (trace w1) = wakes (trace w)) as Hw1.
  { destruct Htr1 as [(-> & _)|(-> & _)]; [reflexivity|].
    rewrite wakes_app. cbn. unfold wakes, count. lia. }
  assert (expired_idle (vars w2) (wrap (clock w2)) = false) as Hne.
  { destruct (dirty (vars w2)) eqn:Hd2.
    - unfold expired_idle. rewrite Hd2. reflexivity.
    - apply fresh_not_expired. auto. }
  assert (teardowns (handshake_events secrets (hs_re e)) = 0%nat) as Hth.
  { unfold handshake_events. destruct (ok (hs_connect (hs_re e))); reflexivity. }
  rewrite (loop_window_eq secrets) in H3. injection H3 as <-.
  rewrite Hne, Hr2, Hdev1 in *.
  destruct (session (dev w2) && sess_post e);
    [|destruct (true && link_post e && _)]; cbn [dev radio trace];
    (split; [reflexivity|]);
    try change (SerialPrintln "MQTT: reconnecting during window..."
                :: handshake_events secrets (hs_re e))
      with ([SerialPrintln "MQTT: reconnecting during window..."]
            ++ handshake_events secrets (hs_re e));
    rewrite ?teardowns_app, ?wakes_app, ?wakes_handshake, ?Hth, Hw2, Hw1,
      Htr, teardowns_app, Ht2, Ht1;
    cbn; unfold teardowns, wakes, count; lia.
Qed.
(** X7 (asleep until the door moves).  With the radio powered down,
    no session and nothing pending, a pass in which step 1 reports no
    change does nothing at all: no call is logged, the radio stays off,
    the pass takes exactly its closing 10 ms and neither the stable
    state nor the deadline moves.  A pass in which step 1 reports a
    change wakes the radio, once. *)
Theorem asleep_until_change :
  forall e w,
    radio (dev w) = false -> session (dev w) = false ->
    dirty (vars w) = false ->
    exists w',
      loop secrets e w = Some (tt, w')
      /\ (door_reports (trace w') = door_reports (trace w) ->
          trace w' = trace w /\ dev w' = dev_off
          /\ clock w' = clock w + 10
          /\ lastStable (vars w') = lastStable (vars w)
          /\ dirty (vars w') = false
          /\ windowDeadline (vars w') = windowDeadline (vars w))
      /\ (door_reports (trace w') <> door_reports (trace w) ->
          lastStable (vars w') = negb (lastStable (vars w))
          /\ wakes (trace w') = S (wakes (trace w))
          /\ radio (dev w') = true).
Proof.
  intros e w Hr Hs Hd.
  destruct (loop_steps secrets e w) as (w1 & w2 & w3 & H1 & H2 & H3 & HL).
  eexists. split; [exact HL|].
  destruct (pass_doors secrets _ _ _ HL) as (w1' & H1' & Hst & Hdoor).
  rewrite H1 in H1'. injection H1' as <-.
  destruct (debounce_frame _ _ _ H1) as (Hdev1 & Hc1 & Hwd1 & _ & Htr1).
  split.
  - intros Heq.
    destruct Hdoor as [(_ & Hs1 & Hd1)|(Hx & _)]; [|lia].
    rewrite Hd in Hd1.
    destruct Htr1 as [(Ht1 & _)|(_ & _ & _ & Hx)]; [|congruence].
    rewrite (ensure_clean secrets e w1 Hd1) in H2. injection H2 as <-.
    rewrite (loop_window_eq secrets) in H3. injection H3 as <-.
    rewrite Hdev1, Hs, Hr. cbn [andb vars dev clock trace].
    repeat split; congruence || lia.
  - intros Hne.
    destruct Hdoor as [(Hx & _)|(_ & Hs1 & Hd1)]; [congruence|].
    destruct (pending_pass _ _ _ _ H1 Hd1 HL) as (Hr' & _ & Hw').
    rewrite Hr in Hw'. cbn [andb] in Hw'.
    split; [congruence|]. split; [lia|exact Hr'].
Qed.

(** X8 (a pending status keeps the radio up).  A pass that enters step 2
    with a status pending (it was pending before, or step 1 has just
    reported a change) ends with the radio powered and has not called
    [wifiRadioSleep], whether the status was sent or not: the window a
    publish of step 2 opens cannot have expired in step 3 of the same
    pass.  It wakes the radio once if the link was not up, and not at
    all if it was. *)
Theorem pending_keeps_radio :
  forall e w,
    exists w',
      loop secrets e w = Some (tt, w')
      /\ (dirty (vars w) = true
          \/ door_reports (trace w') <> door_reports (trace w) ->
          radio (dev w') = true
          /\ teardowns (trace w') = teardowns (trace w)
          /\ wakes (trace w')
             = (wakes (trace w)
                + if radio (dev w) && link_pre e then 0 else 1)%nat).
Proof.
  intros e w.
  destruct (loop_total secrets e w) as [w' HL].
  exists w'. split; [exact HL|]. intros Hp.
  destruct (pass_doors secrets _ _ _ HL) as (w1 & H1 & _ & Hdoor).
  apply (pending_pass _ _ _ _ H1); [|exact HL].
  destruct Hdoor as [(Heq & _ & Hd1)|(_ & _ & Hd1)]; [|exact Hd1].
  destruct Hp as [Hd|Hne]; [congruence|contradiction].
Qed.
(** ** Reconnects inside the window *)

(** X9 (reconnect inside the window, before the counter wraps).  As long
    as [millis()] has not wrapped (the first 2^32 ms, and a window that
    ends before them): when step 3 finds the session lost, it reconnects
    exactly when the link is up and at most [WINDOW_MS] have passed since
    the status publish that opened the window; it then makes one
    [mqtt.connect], and the session is what that connect returned. *)
Theorem reconnect_within_window :
  forall since e w,
    windowDeadline (vars w) = wrap (wrap since + WINDOW_MS) ->
    0 <= since -> since + WINDOW_MS < 2 ^ 32 -> 0 <= clock w < 2 ^ 32 ->
    session (dev w) && sess_post e = false ->
    exists w',
      loop_window secrets e w = Some (tt, w')
      /\ let again := radio (dev w) && link_post e
                      && (clock w <=? since + WINDOW_MS) in
         reconnects (trace w')
         = (reconnects (trace w) + if again then 1 else 0)%nat
         /\ connects (trace w')
            = connects (trace w)
              ++ (if again then [ok (hs_connect (hs_re e))] else [])
         /\ session (dev w') = again && ok (hs_connect (hs_re e))
         /\ vars w' = vars w.
Proof.
  intros since e w Hw Hs Hend Hc Hlost.
  rewrite (loop_window_eq secrets), Hlost.
  rewrite (window_open_exact _ since) by assumption.
  eexists. split; [reflexivity|]. cbv zeta.
  destruct (radio (dev w) && link_post e && (clock w <=? since + WINDOW_MS));
    cbn [vars dev trace session andb].
  - change (SerialPrintln "MQTT: reconnecting during window..."
            :: handshake_events secrets (hs_re e))
      with ([SerialPrintln "MQTT: reconnecting during window..."]
            ++ handshake_events secrets (hs_re e)).
    rewrite !reconnects_app, !connects_app, (reconnects_handshake secrets).
    unfold handshake_events.
    destruct (ok (hs_connect (hs_re e))); repeat split; cbn;
      unfold reconnects, count; lia.
  - rewrite app_nil_r. repeat split. lia.
Qed.
(** ** What goes on the wire *)

Lemma wire_keys tr :
  Forall (wire_ok secrets) (keys tr) -> Forall (wire_ok secrets) tr.
Proof.
  induction tr as [|ev tr IH]; intros H; [constructor|].
  unfold keys in *. cbn [filter] in H.
  destruct (key ev) eqn:Hk.
  - inversion H. subst. constructor; auto.
  - constructor; [|auto]. destruct ev; try exact I; discriminate Hk.
Qed.

Lemma wire_handshake hs :
  Forall (wire_ok secrets) (handshake_events secrets hs).
Proof.
  unfold handshake_events.
  destruct (ok (hs_connect hs));
    repeat (apply Forall_cons || apply Forall_nil); cbn; auto 10.
Qed.

Lemma wire_status st b :
  wire_ok secrets (MqttPublish TOPIC_STATUS (statusString st) true b).
Proof. destruct st; cbn; auto 10. Qed.

Lemma wire_step2 e w w' tr :
  Step2 secrets e w w' tr -> Forall (wire_ok secrets) tr.
Proof.
  intros HS. apply wire_keys.
  destruct HS as [_ _ _ _ ->|_ _ _ _ ->|hsk _ _ _ [->| ->] ->
                 |hsk now _ _ _ _ [->| ->] ->];
    repeat (apply Forall_cons || apply Forall_nil || apply wire_status);
    cbn; auto 10.
Qed.

Lemma wire_pass e w w' :
  loop secrets e w = Some (tt, w') ->
  Forall (wire_ok secrets) (trace w) -> Forall (wire_ok secrets) (trace w').
Proof.
  intros HL Hw.
  destruct (loop_steps secrets e w) as (w1 & w2 & w3 & H1 & H2 & H3 & HL').
  rewrite HL' in HL. injection HL as <-. clear HL'. cbn [trace].
  assert (Forall (wire_ok secrets) (trace w1)) as Hw1.
  { destruct (debounce_frame _ _ _ H1) as (_ & _ & _ & _ & [(-> & _)|(-> & _)]);
      [exact Hw|].
    apply Forall_app. split; [exact Hw|]. repeat constructor. }
  assert (Forall (wire_ok secrets) (trace w2)) as Hw2.
  { destruct (ensure_cases secrets e w1) as (w2' & tr & H2' & Htr & _ & Hc).
    rewrite H2 in H2'. injection H2' as <-. rewrite Htr.
    apply Forall_app. split; [exact Hw1|].
    destruct Hc as [(_ & _ & ->)|(_ & HS)]; [constructor|].
    eapply wire_step2; exact HS. }
  rewrite (loop_window_eq secrets) in H3. injection H3 as <-.
  destruct (session (dev w2) && sess_post e);
    match goal with |- context [if ?c then _ else _] => destruct c end;
    cbn [trace]; try exact Hw2;
    apply Forall_app; (split; [exact Hw2|]).
  - unfold teardown_events. repeat constructor.
  - repeat constructor.
  - constructor; [exact I|apply wire_handshake].
Qed.

(** X10 (what goes on the wire).  In every execution from power-on,
    every [mqtt.publish] is retained and is either "open" or "closed" on
    the status topic or the birth message "true" on the availability
    topic, and every [mqtt.connect] presents the client id "esp-"
    followed by the configured suffix and the configured credentials (or
    none, when user and password are both empty) and registers the will
    "false", retained, QoS 0, on the availability topic. *)
Theorem wire_vocabulary :
  forall d0 e0 es,
    exists w,
      boot secrets d0 e0 es = Some w
      /\ Forall (wire_ok secrets) (trace w)
      /\ makeClientId secrets = ("esp-" ++ CLIENT_SUFFIX secrets)%string
      /\ (MQTT_USER secrets = ""%string -> MQTT_PASS secrets = ""%string ->
          broker_cred secrets = None).
Proof.
  intros d0 e0 es.
  assert (exists w, boot secrets d0 e0 es = Some w) as [w Hw].
  { unfold boot. destruct (setup_total secrets d0 e0) as [w0 ->].
    apply run_total. }
  exists w. split; [exact Hw|]. split.
  - revert es w Hw. apply (boot_ind secrets).
    + intros w. rewrite (setup_eq secrets). intros H.
      destruct (ensure_cases secrets e0 (booted e0))
        as (w' & tr & H' & Htr & _ & Hc).
      rewrite H in H'. injection H' as <-. rewrite Htr.
      apply Forall_app. split; [cbn; repeat constructor|].
      destruct Hc as [(Hd & _)|(_ & HS)]; [discriminate Hd|].
      eapply wire_step2; exact HS.
    + intros e w w' Hw HL. eapply wire_pass; eassumption.
  - split; [reflexivity|].
    intros Hu Hp. unfold broker_cred. rewrite Hu, Hp. reflexivity.
Qed.
(** ** Spacing of the reported changes *)

(** A pass keeps the bounce timer at or after [tc], and reports a change
    only [DEBOUNCE_MS] after [tc]. *)
Lemma pass_settled tc e w w' :
  loop secrets e w = Some (tt, w') -> settled_since tc w ->
  settled_since tc w'
  /\ (door_reports (trace w') <> door_reports (trace w) ->
      tc + DEBOUNCE_MS <= clock w).
Proof.
  intros HL [Htc Hs].
  destruct (pass_tracker secrets _ _ _ HL) as (Hrd & Hba & Hst & Hdr & Hck).
  cbv zeta in *.
  set (raw := logical_of_level (pin_level e)) in *.
  destruct (Bool.eqb raw (lastRead (vars w))) eqn:Hsame.
  - apply eqb_prop in Hsame.
    destruct Hs as [Heq|(tb & Htb & Hr)].
    + replace (Bool.eqb (lastStable (vars w)) raw) with true in *
        by (symmetry; apply eqb_true_iff; congruence).
      rewrite andb_false_r in *.
      split; [|intros Hne; lia].
      split; [lia|]. left. congruence.
    + split.
      * split; [lia|].
        destruct (_ && _); [left; congruence|].
        right. exists tb. split; [congruence|lia].
      * intros Hne.
        destruct ((DEBOUNCE_MS <=? _) && _) eqn:Hcm; [|lia].
        apply andb_prop in Hcm. destruct Hcm as [Hge _].
        apply Z.leb_le in Hge. rewrite Htb, wrap_sub_wrap in Hge.
        unfold wrap in Hge. change DEBOUNCE_MS with 80 in *.
        destruct (Z_lt_le_dec (clock w - tb) 80) as [Hlt|]; [|lia].
        rewrite Z.mod_small in Hge by lia. lia.
  - rewrite wrap_sub_self in *. change (DEBOUNCE_MS <=? 0) with false in *.
    cbn [andb] in *.
    split; [|intros Hne; lia].
    split; [lia|]. right. exists (clock w). split; [congruence|lia].
Qed.

Lemma run_settled tc es :
  forall w wn,
    run secrets es w = Some wn -> settled_since tc w -> settled_since tc wn.
Proof.
  induction es as [|e es IH]; intros w wn; cbn [run].
  - intros [= <-]. auto.
  - destruct (loop secrets e w) as [[[] w1]|] eqn:HL; [|discriminate].
    intros Hrun Hs. apply (IH w1 wn Hrun).
    apply (pass_settled tc e w w1 HL Hs).
Qed.

(** X11 (reported changes are spaced).  Two changes of the stable state
    are never reported less than [DEBOUNCE_MS] apart: if a pass that
    starts at time [t] reports a change, any later pass that reports one
    starts at [t + DEBOUNCE_MS] or later, however the switch bounces in
    between, however long the passes take and whether or not
    [millis()] wraps.  The same holds from any state in which the last
    reading agrees with the stable state, as [setup] leaves it. *)
Theorem door_reports_spaced :
  forall e w w' es wn e' wn',
    (loop secrets e w = Some (tt, w')
     /\ door_reports (trace w') <> door_reports (trace w)
     \/ w' = w /\ lastRead (vars w) = lastStable (vars w)) ->
    run secrets es w' = Some wn ->
    loop secrets e' wn = Some (tt, wn') ->
    door_reports (trace wn') <> door_reports (trace wn) ->
    clock w + DEBOUNCE_MS <= clock wn.
Proof.
  intros e w w' es wn e' wn' Hfirst Hrun HL' Hne'.
  assert (settled_since (clock w) w') as Hs.
  { destruct Hfirst as [[HL Hne]|[-> Heq]]; [|split; [lia|auto]].
    destruct (pass_tracker secrets _ _ _ HL) as (Hrd & _ & Hst & Hdr & Hck).
    cbv zeta in *. split; [exact Hck|]. left.
    destruct (_ && _); [congruence|lia]. }
  apply (pass_settled (clock w) e' wn wn' HL'); [|exact Hne'].
  eapply run_settled; eassumption.
Qed.
(** ** Where the time of a pass goes *)

Lemma call_time_app e a :
  forall re b,
    call_time e re (a ++ b)
    = call_time e re a
      + call_time e (re || negb (reconnects a =? 0)%nat) b.
Proof.
  induction a as [|ev a IH]; intros re b.
  - cbn. rewrite orb_false_r. lia.
  - destruct ev; cbn [app call_time]; rewrite IH;
      try (change (reconnects (_ :: a)) with (reconnects a); lia).
    do 2 f_equal.
    unfold reconnects, count. cbn [filter].
    destruct (s =? "MQTT: reconnecting during window...")%string;
      cbn [List.length Nat.eqb negb orb];
      rewrite ?orb_true_r, ?orb_false_r; reflexivity.
Qed.

(** No call, no time. *)
Lemma call_time_none e tr :
  mqtt_calls tr = 0%nat -> forall re, call_time e re tr = 0.
Proof.
  unfold mqtt_calls, count.
  induction tr as [|ev tr IH]; intros H re; [reflexivity|].
  destruct ev; cbn [call_time filter List.length] in *;
    try (apply IH; exact H); discriminate H.
Qed.

(** Step 2 with a status pending, to the millisecond: the wait for the
    link (none when it is up, else 1 to 8001 ms) and the time inside the
    MQTT calls it logs.  When it leaves the status pending, the failure
    diagnostic is the last thing it does. *)
Lemma ensure_account e w :
  dirty (vars w) = true ->
  exists w' seg waited,
    ensureMqttAndPublishIfDirty secrets e w = Some (tt, w')
    /\ trace w' = trace w ++ seg
    /\ clock w' = clock w + waited + call_time e false seg
    /\ (if radio (dev w) && link_pre e then waited = 0
        else 1 <= waited <= 8001)
    /\ reconnects seg = 0%nat
    /\ (dirty (vars w') = true ->
        exists pre d,
          seg = pre ++ [SerialPrintln d]
          /\ (d = "WiFi: connect failed" \/ d = "MQTT: connect failed"
              \/ d = "MQTT: publish failed")%string).
Proof.
  destruct w as [[st rd ba di wd] [r l s] c tr]. cbn. intros ->.
  assert (forall a b : list Event, tr ++ a ++ b = (tr ++ a) ++ b) as Hassoc
    by (intros; apply app_assoc).
  unfold ensureMqttAndPublishIfDirty. run_prog.
  destruct (r && link_pre e) eqn:Hup; run_prog;
    match goal with
    | |- context [wifiEnsureConnected _ _ _ ?W] =>
        destruct (wifiEnsureConnected_timing e W) as [Hfast Hslow]
    end; cbn [radio dev vars clock trace session link] in Hfast, Hslow.
  - rewrite (Hfast Hup). clear Hfast Hslow. run_prog.
    destruct (s && sess_pre e) eqn:Hlive; run_prog;
      rewrite ?(mqttConnect_eq secrets); run_prog;
      try (destruct (ok (hs_connect (hs_pub e))) eqn:Hconn; run_prog);
      try (destruct (ok (status_pub e)) eqn:Hpub; run_prog);
      rewrite ?Hlive; run_prog;
      account tr 0 st.
  - destruct (Hslow Hup) as (c' & Heq & Hc & _). clear Hfast Hslow.
    cbv zeta in Heq.
    set (up := match wifi_join e with Some _ => _ | None => _ end) in Heq.
    clearbody up. rewrite Heq. clear Heq.
    destruct up; run_prog;
      try (destruct (s && sess_pre e) eqn:Hlive; run_prog);
      rewrite ?(mqttConnect_eq secrets); run_prog;
      try (destruct (ok (hs_connect (hs_pub e))) eqn:Hconn; run_prog);
      try (destruct (ok (status_pub e)) eqn:Hpub; run_prog);
      rewrite ?Hlive; run_prog;
      account tr (c' - c) st.
Qed.
(** Step 3, to the millisecond: the 1 ms of the power-down when the
    window has expired, and the time inside the calls of a reconnect. *)
Lemma loop_window_account e w :
  exists w' seg tail,
    loop_window secrets e w = Some (tt, w')
    /\ trace w' = trace w ++ seg
    /\ clock w' = clock w + tail + call_time e false seg
    /\ (tail = 0
        \/ tail = 1 /\ expired_idle (vars w) (wrap (clock w)) = true).
Proof.
  rewrite (loop_window_eq secrets).
  destruct (session (dev w) && sess_post e);
    [destruct (expired_idle (vars w) (wrap (clock w)))
    |destruct (radio (dev w) && link_post e
               && window_open (vars w) (wrap (clock w)))].
  - eexists _, _, 1. split; [reflexivity|]. cbn [trace clock].
    split; [reflexivity|]. split; [cbn; lia|auto].
  - eexists _, _, 0. split; [reflexivity|]. cbn [trace clock].
    split; [reflexivity|]. split; [cbn; lia|auto].
  - eexists _, _, 0. split; [reflexivity|]. cbn [trace clock].
    split; [reflexivity|]. split; [|auto].
    unfold handshake_events.
    destruct (ok (hs_connect (hs_re e))); cbn -[Z.add Z.of_N]; lia.
  - exists {| vars := vars w;
              dev := {| radio := radio (dev w);
                        link := radio (dev w) && link_post e;
                        session := false |};
              clock := clock w; trace := trace w |}, [], 0.
    split; [reflexivity|]. cbn [trace clock]. rewrite app_nil_r.
    split; [reflexivity|]. split; [cbn; lia|auto].
Qed.

(** Steps 1 to 3 of a pass, to the millisecond. *)
Lemma pass_account e w :
  exists w' seg waited tail,
    loop secrets e w = Some (tt, w')
    /\ trace w' = trace w ++ seg
    /\ clock w' = clock w + waited + tail + 10 + call_time e false seg
    /\ (waited = 0 /\ 0 <= tail <= 1 \/ 1 <= waited <= 8001 /\ tail = 0)
    /\ (waited = 0
        \/ (dirty (vars w) = true
            \/ door_reports (trace w') <> door_reports (trace w))
           /\ radio (dev w) && link_pre e = false).
Proof.
  destruct (loop_steps secrets e w) as (w1 & w2 & w3 & H1 & H2 & H3 & HL).
  destruct (pass_doors secrets _ _ _ HL) as (w1' & H1' & _ & Hdoor).
  rewrite H1 in H1'. injection H1' as <-. cbn [trace] in Hdoor.
  destruct (debounce_frame _ _ _ H1) as (Hdev1 & Hc1 & _ & _ & Htr1).
  assert (exists d, trace w1 = trace w ++ d
                    /\ call_time e false d = 0 /\ reconnects d = 0%nat)
    as (d & Hd & Hcd & Hrd).
  { destruct Htr1 as [(-> & _)|(-> & _)].
    - exists []. rewrite app_nil_r. auto.
    - eexists. split; [reflexivity|].
      destruct (lastStable (vars w1)); split; reflexivity. }
  destruct (loop_window_account e w2) as (w3' & s3 & tail & H3' & Ht3 & Hc3 & Htl).
  rewrite H3 in H3'. injection H3' as <-.
  assert (exists s2 waited,
            trace w2 = trace w1 ++ s2
            /\ clock w2 = clock w1 + waited + call_time e false s2
            /\ reconnects s2 = 0%nat
            /\ (waited = 0 /\ (tail = 0 \/ tail = 1)
                \/ (1 <= waited <= 8001 /\ tail = 0)
                   /\ dirty (vars w1) = true
                   /\ radio (dev w) && link_pre e = false))
    as (s2 & waited & Ht2 & Hc2 & Hr2 & Hwt).
  { destruct (dirty (vars w1)) eqn:Hd1.
    - destruct (ensure_account e w1 Hd1)
        as (w2' & s2 & waited & H2' & Ht2 & Hc2 & Hw & Hr2 & _).
      rewrite H2 in H2'. injection H2' as <-.
      destruct (ensure_wakes e w1 Hd1) as (w2' & H2' & _ & Hfresh & _).
      rewrite H2 in H2'. injection H2' as <-.
      assert (tail = 0) as ->.
      { destruct Htl as [->|[_ Hexp]]; [reflexivity|].
        destruct (dirty (vars w2)) eqn:Hd2.
        - unfold expired_idle in Hexp. rewrite Hd2 in Hexp. discriminate.
        - rewrite (fresh_not_expired _ _ (Hfresh eq_refl)) in Hexp.
          discriminate. }
      exists s2, waited. repeat (split; [assumption|]).
      rewrite Hdev1 in Hw.
      destruct (radio (dev w) && link_pre e); [left; auto|right; auto].
    - rewrite (ensure_clean secrets e w1 Hd1) in H2. injection H2 as <-.
      exists [], 0. rewrite app_nil_r.
      split; [reflexivity|]. split; [cbn; lia|]. split; [reflexivity|].
      left. split; [reflexivity|]. destruct Htl as [->|[-> _]]; auto. }
  exists {| vars := vars w3; dev := dev w3; clock := clock w3 + 10;
            trace := trace w3 |}, (d ++ s2 ++ s3), waited, tail.
  split; [exact HL|]. cbn [trace clock].
  split; [rewrite Ht3, Ht2, Hd, <- !app_assoc; reflexivity|].
  rewrite !call_time_app, Hrd, Hcd.
  cbn [Nat.eqb negb orb]. rewrite Hr2. cbn [Nat.eqb negb orb].
  split; [lia|].
  split.
  - destruct Hwt as [(-> & [->| ->])|((Hw & ->) & _)];
      [left|left|right]; lia.
  - destruct Hwt as [(-> & _)|(_ & Hd1 & Hup)]; [left; reflexivity|].
    right. split; [|exact Hup].
    destruct Hdoor as [(_ & _ & Hsame)|(Hrep & _)]; [left; congruence|].
    right. cbn [trace]. lia.
Qed.

(** X6 (duration of a pass).  A pass of [loop] takes its closing 10 ms,
    the time spent inside the [mqtt.connect] and [mqtt.publish] calls it
    makes, and at most 8001 ms more: 10 ms plus the calls is the least,
    8011 ms plus the calls the most, and a pass that makes no such call
    returns within 8011 ms.  The pass waits for the link only when a
    status is pending at step 2 and the link is not up; any other pass
    (nothing pending and no change reported, or the link up) takes at
    most 11 ms plus the calls it makes. *)
Theorem pass_duration :
  forall e w,
    exists w' seg,
      loop secrets e w = Some (tt, w')
      /\ trace w' = trace w ++ seg
      /\ clock w + 10 + call_time e false seg <= clock w'
         <= clock w + 8011 + call_time e false seg
      /\ (mqtt_calls seg = 0%nat -> clock w' <= clock w + 8011)
      /\ (dirty (vars w) = false ->
          door_reports (trace w') = door_reports (trace w) ->
          clock w' <= clock w + 11 + call_time e false seg)
      /\ (radio (dev w) && link_pre e = true ->
          clock w' <= clock w + 11 + call_time e false seg).
Proof.
  intros e w.
  destruct (pass_account e w)
    as (w' & seg & waited & tail & HL & Htr & Hc & Hwt & Hwhy).
  exists w', seg. split; [exact HL|]. split; [exact Htr|].
  split; [lia|]. split; [|split].
  - intros Hno. rewrite (call_time_none e seg Hno) in Hc. lia.
  - intros Hd Hsame. destruct Hwhy as [->|([Hp|Hp] & _)]; [lia|congruence|].
    contradiction.
  - intros Hup. destruct Hwhy as [->|(_ & Hdown)]; [lia|congruence].
Qed.

(** ** The boot *)

(** X12 (the boot).  Whatever the device was doing before power-on,
    [setup] powers the radio down once, then wakes it once for the boot
    publish and leaves it powered, sent or not; it reports no change of
    the door.  It returns 12 to 8012 ms after power-on plus the time
    spent inside the [mqtt.connect] and [mqtt.publish] calls it makes:
    at 8012 ms at the latest when it makes none.  The stable state and
    the last reading are both the level read at boot. *)
Theorem setup_profile :
  forall d0 e0,
    exists w,
      setup secrets e0 (power_on d0) = Some (tt, w)
      /\ teardowns (trace w) = 1%nat
      /\ wakes (trace w) = 1%nat
      /\ door_reports (trace w) = 0%nat
      /\ radio (dev w) = true
      /\ lastStable (vars w) = logical_of_level (pin_level e0)
      /\ lastRead (vars w) = logical_of_level (pin_level e0)
      /\ 12 + call_time e0 false (trace w) <= clock w
         <= 8012 + call_time e0 false (trace w)
      /\ (mqtt_calls (trace w) = 0%nat -> clock w <= 8012).
Proof.
  intros d0 e0. rewrite (setup_eq secrets).
  destruct (ensure_dirty secrets e0 (booted e0) eq_refl)
    as (w & tr & H & Htr & _ & HS).
  destruct (ensure_span e0 (booted e0) eq_refl) as (w1 & H1 & Hr & _).
  rewrite H in H1. injection H1 as <-.
  destruct (ensure_wakes e0 (booted e0) eq_refl) as (w1 & H1 & Hw & _).
  rewrite H in H1. injection H1 as <-.
  destruct (ensure_account e0 (booted e0) eq_refl)
    as (w1 & seg & waited & H1 & Hseg & Hc & Hwt & _).
  rewrite H in H1. injection H1 as <-.
  exists w. split; [exact H|].
  split. { rewrite Htr, teardowns_app, (step2_teardowns secrets _ _ _ _ HS).
           reflexivity. }
  split; [exact Hw|].
  split. { rewrite Htr, door_reports_app.
           destruct (step2_quiet secrets _ _ _ _ HS) as [_ ->]. reflexivity. }
  split; [exact Hr|].
  assert (lastStable (vars w) = lastStable (vars (booted e0))
          /\ lastRead (vars w) = lastRead (vars (booted e0))) as [Hs Hl].
  { destruct HS as [_ -> _ _ _|_ -> _ _ _|hsk _ -> _ _ _|hsk now _ -> _ _ _ _];
      split; reflexivity. }
  split; [exact Hs|]. split; [exact Hl|].
  change (radio (dev (booted e0)) && link_pre e0) with false in Hwt.
  cbv iota in Hwt. change (clock (booted e0)) with 11 in Hc.
  assert (call_time e0 false (trace w) = call_time e0 false seg) as Hct.
  { rewrite Hseg, call_time_app. reflexivity. }
  rewrite Hct. split; [lia|].
  intros Hno. rewrite <- Hct, (call_time_none e0 _ Hno) in Hc. lia.
Qed.
(** ** The rest of a failed pass *)

(** C4 (failure retry without escalation), as the code has it.  A pass
    in which the link, the broker connect or the status publish failed
    (one of the three diagnostics was printed) returns with [dirty] still
    set; no status publish was accepted in it and at most one was
    attempted, the refused one.  The diagnostic is the last call of step
    2, but not of the pass: step 3 still runs.  With the session live it
    calls [mqtt.loop]; with the session lost, the link up and a window
    open it announces a reconnect and calls [mqttConnect], that is one
    more [mqtt.connect] and, when that is accepted, the publish of "true"
    on the availability topic; otherwise it calls nothing.  It never
    powers down and never touches the variables.  The next pass returns
    as well, whatever the environment, and takes the pending status up
    again: it ends either with a failure diagnostic and [dirty] set, or
    with the one accepted publish of the stable state and [dirty]
    cleared, the latter whenever the environment cooperates.  There is no
    fault state: any further passes return too. *)
Theorem failure_retry :
  forall e w w',
    loop secrets e w = Some (tt, w') ->
    failures (trace w') <> failures (trace w) ->
    dirty (vars w') = true
    /\ failures (trace w') = S (failures (trace w))
    /\ status_sent (trace w') = status_sent (trace w)
    /\ (status_tried (trace w') = status_tried (trace w)
        \/ exists p,
             status_tried (trace w') = status_tried (trace w) ++ [(p, true, false)])
    /\ (exists w1 w2 pre d,
          loop_debounce e w = Some (tt, w1)
          /\ ensureMqttAndPublishIfDirty secrets e w1 = Some (tt, w2)
          /\ trace w2 = trace w ++ pre ++ [SerialPrintln d]
          /\ (d = "WiFi: connect failed" \/ d = "MQTT: connect failed"
              \/ d = "MQTT: publish failed")%string
          /\ vars w' = vars w2
          /\ radio (dev w') = radio (dev w2)
          /\ trace w'
             = trace w2
               ++ (if session (dev w2) && sess_post e then [MqttLoop]
                   else if radio (dev w2) && link_post e
                           && window_open (vars w2) (wrap (clock w2))
                   then SerialPrintln "MQTT: reconnecting during window..."
                        :: handshake_events secrets (hs_re e)
                   else []))
    /\ (forall e',
        exists w'',
          loop secrets e' w' = Some (tt, w'')
          /\ (dirty (vars w'') = true
               /\ failures (trace w'') = S (failures (trace w'))
               /\ status_sent (trace w'') = status_sent (trace w')
              \/ dirty (vars w'') = false
                 /\ failures (trace w'') = failures (trace w')
                 /\ status_sent (trace w'')
                    = status_sent (trace w')
                      ++ [(statusString (lastStable (vars w'')), true)])
          /\ (cooperative e' -> dirty (vars w'') = false))
    /\ (forall es, exists wn, run secrets es w' = Some wn).
Proof.
  intros e w w' HL Hf.
  destruct (failed_pass_status secrets e w w' HL Hf)
    as (Hd' & Hf1 & Hs & Ht & Hnext & Hall).
  repeat (split; [assumption|]). split; [|split; assumption].
  destruct (pass_failures secrets _ _ _ HL) as (w1 & H1 & Hfw & _).
  destruct (dirty (vars w1)) eqn:Hd1; [|cbn in Hfw; lia].
  destruct (loop_steps secrets e w) as (w1' & w2 & w3 & H1' & H2 & H3 & HL').
  rewrite H1 in H1'. injection H1' as <-.
  rewrite HL' in HL. injection HL as <-. clear HL'. cbn [vars dev trace] in *.
  destruct (loop_window_reconnects secrets _ _ _ H3) as [Hv3 _].
  rewrite Hv3 in Hd'.
  destruct (ensure_account e w1 Hd1)
    as (w2' & seg & waited & H2' & Hseg & _ & _ & _ & Hlast).
  rewrite H2 in H2'. injection H2' as <-.
  destruct (Hlast Hd') as (pre & d & -> & Hdiag).
  assert (exists d1, trace w1 = trace w ++ d1) as [d1 Hd1'].
  { destruct (debounce_frame _ _ _ H1) as (_ & _ & _ & _ & [(-> & _)|(-> & _)]).
    - exists []. rewrite app_nil_r. reflexivity.
    - eexists. reflexivity. }
  exists w1, w2, (d1 ++ pre), d.
  split; [exact H1|]. split; [exact H2|].
  split; [rewrite Hseg, Hd1', <- !app_assoc; reflexivity|].
  split; [exact Hdiag|]. split; [exact Hv3|].
  rewrite (loop_window_eq secrets) in H3. injection H3 as <-.
  unfold expired_idle. rewrite Hd'. cbn [negb andb].
  destruct (session (dev w2) && sess_post e);
    [|destruct (radio (dev w2) && link_post e
                && window_open (vars w2) (wrap (clock w2)))];
    cbn [dev radio trace]; split; try reflexivity.
  rewrite app_nil_r. reflexivity.
Qed.

End More.

(** ** Instances of the further properties *)

(** C4 at work: the boot finds no access point, and so does the first
    pass, which prints its failure; the status stays pending, and the
    next pass, in a fair environment, sends it. *)
Lemma failure_retry_witness :
  exists w w' w'',
    boot sample_secrets dev_off (cut_off LOW) [] = Some w
    /\ loop sample_secrets (cut_off LOW) w = Some (tt, w')
    /\ failures (trace w') = S (failures (trace w))
    /\ dirty (vars w') = true
    /\ status_sent (trace w') = []
    /\ loop sample_secrets (fair LOW) w' = Some (tt, w'')
    /\ dirty (vars w'') = false
    /\ status_sent (trace w'') = [("closed", true)].
Proof.
  eexists _, _, _. split; [vm_compute; reflexivity|].
  split; [vm_compute; reflexivity|].
  match goal with
  | |- failures (trace ?w') = S (failures (trace ?w)) /\ _ =>
      destruct (failure_retry sample_secrets (cut_off LOW) w w')
        as (Hd & Hf & Hs & _ & _ & Hnext & _);
      [vm_compute; reflexivity | vm_compute; discriminate |]
  end.
  split; [exact Hf|]. split; [exact Hd|]. split; [exact Hs|].
  split; [vm_compute; reflexivity|].
  split; reflexivity.
Defined.

(** C4 as stated fails: a pass whose connection attempt failed does do
    further publish work.  After a fair boot the door opens; in the pass
    that reports it the broker refuses the connect of step 2, which
    prints its diagnostic and returns with the status pending.  Step 3
    of the same pass then finds the link up and the window of the boot
    publish open, calls [mqttConnect] again, is accepted and publishes
    "true" on the availability topic. *)
Lemma failed_pass_still_publishes :
  exists w w1 w2 w',
    boot sample_secrets dev_off (fair LOW) (repeat (fair HIGH) 8) = Some w
    /\ loop_debounce (broker_flaky HIGH) w = Some (tt, w1)
    /\ ensureMqttAndPublishIfDirty sample_secrets (broker_flaky HIGH) w1
       = Some (tt, w2)
    /\ last (trace w2) MqttLoop = SerialPrintln "MQTT: connect failed"
    /\ loop sample_secrets (broker_flaky HIGH) w = Some (tt, w')
    /\ failures (trace w') = S (failures (trace w))
    /\ dirty (vars w') = true
    /\ connects (trace w') = connects (trace w) ++ [false; true]
    /\ trace w'
       = trace w2
         ++ [SerialPrintln "MQTT: reconnecting during window...";
             MqttSetServer "192.168.1.29" 1883;
             MqttConnect "esp-a1b2c3" None TOPIC_ONLINE 0 true "false" true;
             MqttPublish TOPIC_ONLINE "true" true true].
Proof.
  eexists _, _, _, _.
  split; [vm_compute; reflexivity|].
  split; [vm_compute; reflexivity|].
  split; [vm_compute; reflexivity|].
  split; [vm_compute; reflexivity|].
  split; [vm_compute; reflexivity|].
  repeat split; vm_compute; reflexivity.
Defined.

(** X4 at work: 10 ms before the end of the window of the boot publish
    (deadline 600012) the session is alive; one pass later it still is,
    and the pass that starts at 600012 powers the radio down. *)
Lemma window_expiry_witness :
  exists wn w',
    run sample_secrets [fair LOW] (kept_alive 600002) = Some wn
    /\ dev wn = dev (kept_alive 600002)
    /\ clock wn = 600012
    /\ loop sample_secrets (fair LOW) wn = Some (tt, w')
    /\ dev w' = dev_off.
Proof.
  destruct (window_expiry sample_secrets false 12 [fair LOW] (fair LOW)
              (kept_alive 600002))
    as (wn & Hrun & Hdev & _ & Hck & Hexp).
  - repeat constructor.
  - split; reflexivity.
  - unfold in_window. repeat split. vm_compute. discriminate.
  - reflexivity.
  - assert (clock wn = 600012) as Hc by (rewrite Hck; reflexivity).
    destruct Hexp as (w' & HL & Hoff & _).
    { rewrite Hc. split; [vm_compute; discriminate | reflexivity]. }
    exists wn, w'. auto.
Defined.

(** X7 at work: asleep at 700000 ms with the door closed, a pass logs
    nothing and takes 10 ms. *)
Lemma asleep_until_change_witness :
  exists w',
    loop sample_secrets (cut_off LOW) (asleep 700000) = Some (tt, w')
    /\ trace w' = trace (asleep 700000)
    /\ dev w' = dev_off
    /\ clock w' = 700010.
Proof.
  destruct (asleep_until_change sample_secrets (cut_off LOW) (asleep 700000)
              eq_refl eq_refl eq_refl)
    as (w' & HL & Hquiet & _).
  exists w'. split; [exact HL|].
  assert (loop sample_secrets (cut_off LOW) (asleep 700000)
          = Some (tt, {| vars := vars (asleep 700000); dev := dev_off;
                         clock := 700010; trace := fair_boot_trace |}))
    as Hrun by (vm_compute; reflexivity).
  rewrite Hrun in HL. injection HL as <-.
  destruct Hquiet as (Ht & Hd & Hc & _); [reflexivity|].
  split; [exact Ht|]. split; [exact Hd|]. exact Hc.
Defined.

(** X9 at work: one second after the boot the broker has dropped the
    session while the link is up; step 3 reconnects. *)
Lemma reconnect_within_window_witness :
  exists w',
    loop_window sample_secrets (broker_drop LOW) (kept_alive 1000)
    = Some (tt, w')
    /\ reconnects (trace w') = 1%nat
    /\ connects (trace w') = [true; true]
    /\ session (dev w') = true.
Proof.
  destruct (reconnect_within_window sample_secrets 12 (broker_drop LOW)
              (kept_alive 1000))
    as (w' & HL & Hre & Hco & Hse & _);
    [reflexivity | discriminate | reflexivity
    | split; [discriminate | reflexivity] | reflexivity |].
  exists w'. split; [exact HL|].
  split; [exact Hre|]. split; [exact Hco|exact Hse].
Defined.

(** X11 at work: the door opens and is reported by the pass that starts
    at 102 ms; it closes at once, and the report of that follows in the
    pass that starts at 192 ms. *)
Lemma door_reports_spaced_witness :
  exists w w' wn wn',
    run sample_secrets (repeat (cut_off HIGH) 8) (stranded 22) = Some w
    /\ loop sample_secrets (fair HIGH) w = Some (tt, w')
    /\ door_reports (trace w') = 1%nat
    /\ run sample_secrets (repeat (fair LOW) 8) w' = Some wn
    /\ loop sample_secrets (fair LOW) wn = Some (tt, wn')
    /\ door_reports (trace wn') = 2%nat
    /\ clock w = 102 /\ clock wn = 192
    /\ clock w + DEBOUNCE_MS <= clock wn.
Proof.
  eexists _, _, _, _.
  split; [vm_compute; reflexivity|].
  split; [vm_compute; reflexivity|].
  split; [reflexivity|].
  split; [vm_compute; reflexivity|].
  split; [vm_compute; reflexivity|].
  split; [reflexivity|].
  split; [reflexivity|].
  split; [reflexivity|].
  match goal with
  | |- clock ?w + _ <= clock ?wn =>
      eapply (door_reports_spaced sample_secrets (fair HIGH) w _
                (repeat (fair LOW) 8) wn (fair LOW))
  end.
  - left. split; [vm_compute; reflexivity | vm_compute; discriminate].
  - vm_compute; reflexivity.
  - vm_compute; reflexivity.
  - vm_compute; discriminate.
Defined.
